(** * FacturaPro: clients, products, dashboard metrics and the invoice engine

    A shallow embedding of [src/App.tsx] and [src/types.ts].

    - JavaScript strings are Rocq strings holding the UTF-8 bytes of the text.
    - JavaScript numbers are the type [number]: rationals extended with
      [NaN] and the two infinities; the sign of zero is not represented.  The
      sums and quotients of the dashboard are rounded to binary64
      ([Binary64]); the engine of the specification and [parseFloat] compute
      exactly.
    - A React component is a record of its [useState] cells; an event handler
      is a function from the world before the event to the world after it.  The
      world also carries the storage collaborator, the log of [alert] messages
      and the file readers that have been started, whose load events are events
      of their own. *)

From Stdlib Require Import String Ascii ZArith QArith Qround Lia Bool Arith.
From Stdlib Require Import Decimal DecimalNat DecimalString.
From stdpp Require Import base option strings list.

Local Open Scope string_scope.
Local Open Scope list_scope.

(** ** JavaScript built-ins used by the source *)

Module JS.

Definition bytes (l : list nat) : string :=
  string_of_list_ascii (map ascii_of_nat l).

(** WhiteSpace and LineTerminator code points of ECMAScript, as UTF-8:
    U+0009..U+000D, U+0020, U+00A0, U+1680, U+2000..U+200A, U+2028, U+2029,
    U+202F, U+205F, U+3000, U+FEFF. *)
Definition whiteSpace : list string :=
  map bytes
    [ [9]; [10]; [11]; [12]; [13]; [32]; [194; 160]; [225; 154; 128];
      [226; 128; 128]; [226; 128; 129]; [226; 128; 130]; [226; 128; 131];
      [226; 128; 132]; [226; 128; 133]; [226; 128; 134]; [226; 128; 135];
      [226; 128; 136]; [226; 128; 137]; [226; 128; 138];
      [226; 128; 168]; [226; 128; 169]; [226; 128; 175]; [226; 129; 159];
      [227; 128; 128]; [239; 187; 191] ].

(** [stripPrefix p s] is [Some rest] when [s = p ++ rest]. *)
Fixpoint stripPrefix (p s : string) : option string :=
  match p with
  | EmptyString => Some s
  | String a p' =>
      match s with
      | EmptyString => None
      | String b s' => if Ascii.eqb a b then stripPrefix p' s' else None
      end
  end.

Fixpoint stripAny (ps : list string) (s : string) : option string :=
  match ps with
  | [] => None
  | p :: ps' =>
      match stripPrefix p s with
      | Some r => Some r
      | None => stripAny ps' s
      end
  end.

Fixpoint dropLeading (ws : list string) (fuel : nat) (s : string) : string :=
  match fuel with
  | O => s
  | S fuel' =>
      match stripAny ws s with
      | Some r => dropLeading ws fuel' r
      | None => s
      end
  end.

(** [String.prototype.trimStart], [trimEnd] and [trim]. *)
Definition trimStart (s : string) : string :=
  dropLeading whiteSpace (String.length s) s.

Definition trimEnd (s : string) : string :=
  String.rev (dropLeading (map String.rev whiteSpace) (String.length s) (String.rev s)).

Definition trim (s : string) : string := trimEnd (trimStart s).

(** [s.split(sep)] for a separator of one character: never empty, and the
    empty string splits into one empty piece. *)
Fixpoint split (sep : ascii) (s : string) : list string :=
  match s with
  | EmptyString => [EmptyString]
  | String c s' =>
      if Ascii.eqb c sep then EmptyString :: split sep s'
      else match split sep s' with
           | [] => [String c EmptyString]
           | piece :: pieces => String c piece :: pieces
           end
  end.

(** [arr.slice(1)]. *)
Definition slice1 {A} (l : list A) : list A := drop 1 l.

(** [String.prototype.toUpperCase] on the ASCII letters; every other byte is
    kept (the case mapping of non-ASCII letters is not represented). *)
Definition upperChar (c : ascii) : ascii :=
  let n := nat_of_ascii c in
  if (97 <=? n)%nat && (n <=? 122)%nat then ascii_of_nat (n - 32) else c.

Fixpoint toUpperCase (s : string) : string :=
  match s with
  | EmptyString => EmptyString
  | String c s' => String (upperChar c) (toUpperCase s')
  end.

(** Truthiness of a string, and [a || b] on strings where [a] may be
    [undefined]. *)
Definition truthyStr (s : string) : bool := negb (String.eqb s "").

Definition orElse (a : option string) (b : string) : string :=
  match a with
  | Some s => if truthyStr s then s else b
  | None => b
  end.

(** [!x?.trim()] for an [x] that may be [undefined]. *)
Definition blank (x : option string) : bool :=
  match x with
  | None => true
  | Some s => negb (truthyStr (trim s))
  end.

(** [String.prototype.toLowerCase] on the ASCII letters; every other byte is
    kept. *)
Definition lowerChar (c : ascii) : ascii :=
  let n := nat_of_ascii c in
  if (65 <=? n)%nat && (n <=? 90)%nat then ascii_of_nat (n + 32) else c.

Fixpoint toLowerCase (s : string) : string :=
  match s with
  | EmptyString => EmptyString
  | String c s' => String (lowerChar c) (toLowerCase s')
  end.

(** [s.includes(sub)]: [sub] occurs somewhere in [s]. *)
Fixpoint includes (s sub : string) : bool :=
  match stripPrefix sub s with
  | Some _ => true
  | None =>
      match s with
      | EmptyString => false
      | String _ s' => includes s' sub
      end
  end.

End JS.

(** ** JavaScript numbers *)

Inductive number : Type :=
| NaN
| PInf
| NInf
| Fin (q : Q).

Module Num.

Abbreviation t := number (only parsing).

Definition zero : number := Fin 0.

Definition ofZ (z : Z) : number := Fin (inject_Z z).

(** The value of [arr.length]. *)
Definition ofNat (n : nat) : number := ofZ (Z.of_nat n).

Definition isNaN (a : number) : bool :=
  match a with NaN => true | _ => false end.

(** Truthiness: [NaN] and zero are falsy. *)
Definition truthy (a : number) : bool :=
  match a with
  | NaN => false
  | Fin q => negb (Qeq_bool q 0)
  | _ => true
  end.

(** [a || b] on numbers. *)
Definition orElse (a b : number) : number := if truthy a then a else b.

Definition neg (a : number) : number :=
  match a with
  | NaN => NaN
  | PInf => NInf
  | NInf => PInf
  | Fin q => Fin (Qred (- q))
  end.

Definition add (a b : number) : number :=
  match a, b with
  | NaN, _ | _, NaN => NaN
  | PInf, NInf | NInf, PInf => NaN
  | PInf, _ | _, PInf => PInf
  | NInf, _ | _, NInf => NInf
  | Fin x, Fin y => Fin (Qred (x + y))
  end.

Definition sub (a b : number) : number :=
  match a, b with
  | Fin x, Fin y => Fin (Qred (x - y))
  | _, _ => add a (neg b)
  end.

(** An infinity of sign [pos] scaled by a finite factor [q]. *)
Definition scaleInf (pos : bool) (q : Q) : number :=
  match (q ?= 0)%Q with
  | Eq => NaN
  | Gt => if pos then PInf else NInf
  | Lt => if pos then NInf else PInf
  end.

Definition mul (a b : number) : number :=
  match a, b with
  | NaN, _ | _, NaN => NaN
  | Fin x, Fin y => Fin (Qred (x * y))
  | PInf, PInf | NInf, NInf => PInf
  | PInf, NInf | NInf, PInf => NInf
  | PInf, Fin y | Fin y, PInf => scaleInf true y
  | NInf, Fin y | Fin y, NInf => scaleInf false y
  end.

(** Division: a zero divisor gives [NaN] for [0/0] and an infinity
    otherwise, as in IEEE 754 with a positive zero. *)
Definition div (a b : number) : number :=
  match a, b with
  | NaN, _ | _, NaN => NaN
  | Fin x, Fin y =>
      if Qeq_bool y 0 then
        match (x ?= 0)%Q with
        | Eq => NaN
        | Gt => PInf
        | Lt => NInf
        end
      else Fin (Qred (x / y))
  | Fin _, _ => zero
  | PInf, Fin y => if Qle_bool 0 y then PInf else NInf
  | NInf, Fin y => if Qle_bool 0 y then NInf else PInf
  | _, _ => NaN
  end.

(** [a <= b] and [a < b]; a comparison with [NaN] is false. *)
Definition leb (a b : number) : bool :=
  match a, b with
  | NaN, _ | _, NaN => false
  | Fin x, Fin y => Qle_bool x y
  | NInf, _ => true
  | _, PInf => true
  | _, _ => false
  end.

Definition ltb (a b : number) : bool :=
  match a, b with
  | NaN, _ | _, NaN => false
  | Fin x, Fin y => negb (Qle_bool y x)
  | PInf, _ => false
  | _, NInf => false
  | _, _ => true
  end.

Definition isDigit (c : ascii) : bool :=
  let n := nat_of_ascii c in (48 <=? n)%nat && (n <=? 57)%nat.

Definition digitVal (c : ascii) : Z := Z.of_nat (nat_of_ascii c) - 48.

(** Reads a run of decimal digits; returns the value accumulated onto
    [acc], the number of digits read, and the rest of the text. *)
Fixpoint scanDigits (s : string) (acc : Z) (n : nat) : Z * nat * string :=
  match s with
  | EmptyString => (acc, n, s)
  | String c s' =>
      if isDigit c then scanDigits s' (10 * acc + digitVal c)%Z (S n)
      else (acc, n, s)
  end.

Definition scanSign (s : string) : bool * string :=
  match s with
  | String "-" s' => (true, s')
  | String "+" s' => (false, s')
  | _ => (false, s)
  end.

(** The exponent part [e[+-]digits], when it is complete. *)
Definition scanExponent (s : string) : Z :=
  match s with
  | String c s' =>
      if Ascii.eqb c "e" || Ascii.eqb c "E" then
        let '(eneg, t) := scanSign s' in
        let '(ev, ne, _) := scanDigits t 0%Z 0%nat in
        if (ne =? 0)%nat then 0%Z else if eneg then (- ev)%Z else ev
      else 0%Z
  | EmptyString => 0%Z
  end.

(** [parseFloat]: leading white space is skipped, then the longest prefix
    that is a decimal literal is read; [NaN] when there is none. *)
Definition parseFloat (input : string) : number :=
  let '(negative, s1) := scanSign (JS.trimStart input) in
  match JS.stripPrefix "Infinity" s1 with
  | Some _ => if negative then NInf else PInf
  | None =>
      let '(ip, ni, s2) := scanDigits s1 0%Z 0%nat in
      let '(mant, nf, s3) :=
        match s2 with
        | String "." t => scanDigits t ip 0%nat
        | _ => (ip, 0%nat, s2)
        end in
      if (ni + nf =? 0)%nat then NaN
      else
        let e := (scanExponent s3 - Z.of_nat nf)%Z in
        let m := if negative then (- mant)%Z else mant in
        Fin (Qred (inject_Z m * Qpower 10 e))
  end.

End Num.

(** ** Binary64 arithmetic

    The [+] and [/] of the source are IEEE 754 binary64 operations: the exact
    result rounded to the nearest number of 53 significant bits, ties to the
    even significand, with subnormals down to 2^-1074 and overflow to
    infinity.  Both zeros are the one [Fin 0]. *)

Module Binary64.

(** The quotient [n/d] divided by [2^e], as a fraction. *)
Definition scale (n d e : Z) : Z * Z :=
  if (0 <=? e)%Z then (n, d * 2 ^ e)%Z else (n * 2 ^ (- e), d)%Z.

(** The integer nearest to [a/b], the even one on a tie; [a >= 0], [b > 0]. *)
Definition nearestEven (a b : Z) : Z :=
  let fl := (a / b)%Z in
  match (2 * (a mod b) ?= b)%Z with
  | Lt => fl
  | Gt => (fl + 1)%Z
  | Eq => if Z.even fl then fl else (fl + 1)%Z
  end.

(** [floor (log2 (n/d))] for positive [n] and [d]. *)
Definition log2Floor (n d : Z) : Z :=
  let e := (Z.log2 n - Z.log2 d)%Z in
  let '(a, b) := scale n d e in
  if (b <=? a)%Z then e else (e - 1)%Z.

(** The binary64 number nearest to the positive rational [n/d]. *)
Definition roundPositive (n d : Z) : number :=
  let e := Z.max (log2Floor n d - 52) (-1074) in
  let '(a, b) := scale n d e in
  let m := nearestEven a b in
  let v := if (0 <=? e)%Z then inject_Z (m * 2 ^ e)
           else Qmake m (Z.to_pos (2 ^ (- e))) in
  if Qle_bool (inject_Z (2 ^ 1024)) v then PInf else Fin (Qred v).

(** The binary64 number nearest to a rational. *)
Definition round (q : Q) : number :=
  match Qnum q with
  | Z0 => Fin 0
  | Zpos n => roundPositive (Zpos n) (Zpos (Qden q))
  | Zneg n => Num.neg (roundPositive (Zpos n) (Zpos (Qden q)))
  end.

(** [a + b]. *)
Definition add (a b : number) : number :=
  match a, b with
  | NaN, _ | _, NaN => NaN
  | PInf, NInf | NInf, PInf => NaN
  | PInf, _ | _, PInf => PInf
  | NInf, _ | _, NInf => NInf
  | Fin x, Fin y => round (x + y)
  end.

(** [a / b]; a zero divisor gives [NaN] for [0/0] and an infinity
    otherwise. *)
Definition div (a b : number) : number :=
  match a, b with
  | NaN, _ | _, NaN => NaN
  | Fin x, Fin y =>
      if Qeq_bool y 0 then
        match (x ?= 0)%Q with
        | Eq => NaN
        | Gt => PInf
        | Lt => NInf
        end
      else round (x / y)
  | Fin _, _ => Fin 0
  | PInf, Fin y => if Qle_bool 0 y then PInf else NInf
  | NInf, Fin y => if Qle_bool 0 y then NInf else PInf
  | _, _ => NaN
  end.

End Binary64.

(** ** Data model ([src/types.ts]) *)

Module Client.
Record t : Type := mk {
  id : string;
  name : string;
  taxId : string;
  email : string;
  address : string;
  city : option string;
  zip : option string;
  phone : option string;
  country : option string
}.
End Client.

(** [keyof Client]. *)
Inductive keyofClient : Type :=
| kId | kName | kTaxId | kEmail | kAddress | kCity | kZip | kPhone | kCountry.

(** [Partial<Client>]: every field may be [undefined]. *)
Module PartialClient.
Record t : Type := mk {
  id : option string;
  name : option string;
  taxId : option string;
  email : option string;
  address : option string;
  city : option string;
  zip : option string;
  phone : option string;
  country : option string
}.

(** The object [{}]. *)
Definition empty : t := mk None None None None None None None None None.

Definition get (k : keyofClient) (o : t) : option string :=
  match k with
  | kId => id o | kName => name o | kTaxId => taxId o | kEmail => email o
  | kAddress => address o | kCity => city o | kZip => zip o
  | kPhone => phone o | kCountry => country o
  end.

(** [{ ...prev, [field]: value }]. *)
Definition set (k : keyofClient) (v : string) (o : t) : t :=
  match k with
  | kId => mk (Some v) (name o) (taxId o) (email o) (address o) (city o) (zip o) (phone o) (country o)
  | kName => mk (id o) (Some v) (taxId o) (email o) (address o) (city o) (zip o) (phone o) (country o)
  | kTaxId => mk (id o) (name o) (Some v) (email o) (address o) (city o) (zip o) (phone o) (country o)
  | kEmail => mk (id o) (name o) (taxId o) (Some v) (address o) (city o) (zip o) (phone o) (country o)
  | kAddress => mk (id o) (name o) (taxId o) (email o) (Some v) (city o) (zip o) (phone o) (country o)
  | kCity => mk (id o) (name o) (taxId o) (email o) (address o) (Some v) (zip o) (phone o) (country o)
  | kZip => mk (id o) (name o) (taxId o) (email o) (address o) (city o) (Some v) (phone o) (country o)
  | kPhone => mk (id o) (name o) (taxId o) (email o) (address o) (city o) (zip o) (Some v) (country o)
  | kCountry => mk (id o) (name o) (taxId o) (email o) (address o) (city o) (zip o) (phone o) (Some v)
  end.
End PartialClient.

Module Product.
Record t : Type := mk {
  id : string;
  code : string;
  name : string;
  price : number;
  unit : option string;
  description : option string
}.
End Product.

Inductive keyofProduct : Type :=
| pId | pCode | pName | pPrice | pUnit | pDescription.

(** What the product form holds in [price]: the number it starts with, or the
    text of the input element. *)
Inductive priceField : Type :=
| PriceNumber (n : number)
| PriceText (s : string).

Module PartialProduct.
Record t : Type := mk {
  id : option string;
  code : option string;
  name : option string;
  price : option priceField;
  unit : option string;
  description : option string
}.

(** The object [{ price: 0, unit: 'H87' }]. *)
Definition initial : t :=
  mk None None None (Some (PriceNumber Num.zero)) (Some "H87") None.

(** [{ ...prev, [field]: value }] for the text of an input element. *)
Definition set (k : keyofProduct) (v : string) (o : t) : t :=
  match k with
  | pId => mk (Some v) (code o) (name o) (price o) (unit o) (description o)
  | pCode => mk (id o) (Some v) (name o) (price o) (unit o) (description o)
  | pName => mk (id o) (code o) (Some v) (price o) (unit o) (description o)
  | pPrice => mk (id o) (code o) (name o) (Some (PriceText v)) (unit o) (description o)
  | pUnit => mk (id o) (code o) (name o) (price o) (Some v) (description o)
  | pDescription => mk (id o) (code o) (name o) (price o) (unit o) (Some v)
  end.
End PartialProduct.

Module InvoiceItem.
Record t : Type := mk {
  id : string;
  productId : string;
  productName : string;
  quantity : number;
  unitPrice : number;
  total : number
}.
End InvoiceItem.

Inductive Status : Type := draft | paid | pending.

Module Invoice.
Record t : Type := mk {
  id : string;
  number : string;
  clientId : string;
  clientName : string;
  clientAddress : string;
  clientTaxId : string;
  date : string;
  items : list InvoiceItem.t;
  subtotal : Num.t;
  taxRate : Num.t;
  taxName : string;
  taxAmount : Num.t;
  retentionRate : Num.t;
  retentionName : string;
  retentionAmount : Num.t;
  total : Num.t;
  status : Status
}.
End Invoice.

(** Modelled from the spec: [./services/storage] is not among the sources.
    The spec gives it whole-collection read and replace semantics:
    [getClients]/[saveClients], [getProducts]/[saveProducts],
    [getInvoices]/[saveInvoices]. *)
Module storage.
Record t : Type := mk {
  getClients : list Client.t;
  getProducts : list Product.t;
  getInvoices : list Invoice.t
}.

Definition saveClients (cs : list Client.t) (s : t) : t :=
  mk cs (getProducts s) (getInvoices s).

Definition saveProducts (ps : list Product.t) (s : t) : t :=
  mk (getClients s) ps (getInvoices s).

Definition saveInvoices (invs : list Invoice.t) (s : t) : t :=
  mk (getClients s) (getProducts s) invs.
End storage.

(** [arr.map(f).filter(x => x !== null)]. *)
Fixpoint filterNotNull {A} (l : list (option A)) : list A :=
  match l with
  | [] => []
  | Some x :: l' => x :: filterNotNull l'
  | None :: l' => filterNotNull l'
  end.

(** [String(n)] for a length. *)
Definition natToString (n : nat) : string :=
  NilEmpty.string_of_uint (Nat.to_uint n).

(** ** The client manager ([ClientManager], App.tsx lines 55-145) *)

Module ClientManager.

(** A [FileReader] started by [handleFileUpload]: the [clients] its [onload]
    callback closed over, the text of the file, and whether the callback has
    run. *)
Record Reader : Type := mkReader {
  captured : list Client.t;
  fileText : string;
  loaded : bool
}.

Record World : Type := mkWorld {
  clients : list Client.t;
  isModalOpen : bool;
  searchTerm : string;
  formData : PartialClient.t;
  readers : list Reader;
  store : storage.t;
  alerts : list string
}.

(** The component as first rendered: [useState(storage.getClients())]. *)
Definition mount (s : storage.t) : World :=
  mkWorld (storage.getClients s) false "" PartialClient.empty [] s [].

Definition alert (msg : string) (w : World) : World :=
  mkWorld (clients w) (isModalOpen w) (searchTerm w) (formData w) (readers w)
          (store w) (alerts w ++ [msg]).

Definition setFormData (fd : PartialClient.t) (w : World) : World :=
  mkWorld (clients w) (isModalOpen w) (searchTerm w) fd (readers w) (store w) (alerts w).

Definition setIsModalOpen (b : bool) (w : World) : World :=
  mkWorld (clients w) b (searchTerm w) (formData w) (readers w) (store w) (alerts w).

Definition setSearchTerm (t : string) (w : World) : World :=
  mkWorld (clients w) (isModalOpen w) t (formData w) (readers w) (store w) (alerts w).

Definition setClients (cs : list Client.t) (w : World) : World :=
  mkWorld cs (isModalOpen w) (searchTerm w) (formData w) (readers w) (store w) (alerts w).

Definition setReaders (rs : list Reader) (w : World) : World :=
  mkWorld (clients w) (isModalOpen w) (searchTerm w) (formData w) rs (store w) (alerts w).

Definition saveClients (cs : list Client.t) (w : World) : World :=
  mkWorld (clients w) (isModalOpen w) (searchTerm w) (formData w) (readers w)
          (storage.saveClients cs (store w)) (alerts w).

Definition handleInputChange (field : keyofClient) (value : string) (w : World) : World :=
  let value := match field with kTaxId => JS.toUpperCase value | _ => value end in
  setFormData (PartialClient.set field value (formData w)) w.

Definition msgName : string := "El nombre o razón social es obligatorio.".
Definition msgTaxId : string := "El RFC / Identificación Fiscal es obligatorio para la facturación.".
Definition msgEmail : string := "El correo electrónico es necesario para enviar la factura.".
Definition msgAddress : string := "La dirección fiscal es obligatoria.".
Definition msgZip : string := "El código postal es requerido para la validación fiscal.".

(** The record built by [addClient] once validation has passed; [now] is
    [Date.now().toString()]. *)
Definition newClient (now : string) (fd : PartialClient.t) : Client.t :=
  Client.mk now
    (default "" (PartialClient.name fd))
    (default "" (PartialClient.taxId fd))
    (default "" (PartialClient.email fd))
    (default "" (PartialClient.address fd))
    (Some (JS.orElse (PartialClient.city fd) ""))
    (Some (JS.orElse (PartialClient.zip fd) ""))
    (Some (JS.orElse (PartialClient.phone fd) ""))
    (Some (JS.orElse (PartialClient.country fd) "México")).

Definition addClient (now : string) (w : World) : World :=
  let fd := formData w in
  if JS.blank (PartialClient.name fd) then alert msgName w
  else if JS.blank (PartialClient.taxId fd) then alert msgTaxId w
  else if JS.blank (PartialClient.email fd) then alert msgEmail w
  else if JS.blank (PartialClient.address fd) then alert msgAddress w
  else if JS.blank (PartialClient.zip fd) then alert msgZip w
  else
    let updated := clients w ++ [newClient now fd] in
    setIsModalOpen false
      (setFormData PartialClient.empty
         (saveClients updated (setClients updated w))).

(** One data line of the CSV text; [rowId] is the value of
    [Date.now().toString() + Math.random().toString(36).substr(2, 5)]
    drawn for this line. *)
Definition clientOfLine (rowId : string) (line : string) : option Client.t :=
  let cols := JS.split "," line in
  if (length cols <? 1)%nat || JS.blank (cols !! 0%nat) then None
  else Some (Client.mk rowId
               (JS.trim (default "" (cols !! 0%nat)))
               (JS.orElse (JS.trim <$> cols !! 1%nat) "XAXX010101000")
               (JS.orElse (JS.trim <$> cols !! 2%nat) "")
               (JS.orElse (JS.trim <$> cols !! 3%nat) "")
               None None None
               (Some "México")).

Definition newClients (rowIds : nat -> string) (text : string) : list Client.t :=
  filterNotNull
    (imap (fun i line => clientOfLine (rowIds i) line)
          (JS.slice1 (JS.split "010" text))).

(** The body of [reader.onload], with the [clients] the handler closed
    over. *)
Definition onload (captured : list Client.t) (rowIds : nat -> string)
           (text : string) (w : World) : World :=
  let nc := newClients rowIds text in
  if (0 <? length nc)%nat then
    let updated := captured ++ nc in
    alert (natToString (length nc) +:+ " clientes importados correctamente.")
      (saveClients updated (setClients updated w))
  else w.

(** [handleFileUpload]; [file] is the text of [e.target.files?.[0]], when
    there is one.  It starts a reader whose callback holds the [clients] of
    this render; the callback runs later, at the reader's load event. *)
Definition handleFileUpload (file : option string) (w : World) : World :=
  match file with
  | None => w
  | Some text => setReaders (readers w ++ [mkReader (clients w) text false]) w
  end.

(** The load event of the k-th reader: its callback runs, once. *)
Definition readerLoad (k : nat) (rowIds : nat -> string) (w : World) : World :=
  match readers w !! k with
  | Some r =>
      if loaded r then w
      else onload (captured r) rowIds (fileText r)
             (setReaders (<[k := mkReader (captured r) (fileText r) true]> (readers w)) w)
  | None => w
  end.

(** An upload whose reader loads before any other event. *)
Definition importCsv (rowIds : nat -> string) (text : string) (w : World) : World :=
  readerLoad (length (readers w)) rowIds (handleFileUpload (Some text) w).

Inductive Event : Type :=
| InputChange (field : keyofClient) (value : string)
| AddClient (now : string)
| FileUpload (file : option string)
| ReaderLoad (k : nat) (rowIds : nat -> string)
| ModalOpen (b : bool)
| Search (t : string).

Definition step (w : World) (e : Event) : World :=
  match e with
  | InputChange f v => handleInputChange f v w
  | AddClient now => addClient now w
  | FileUpload file => handleFileUpload file w
  | ReaderLoad k ids => readerLoad k ids w
  | ModalOpen b => setIsModalOpen b w
  | Search t => setSearchTerm t w
  end.

(** The world after a sequence of events, starting from the first render. *)
Definition run (s : storage.t) (es : list Event) : World :=
  fold_left step es (mount s).

(** The test of [filteredClients]:
    [c.name.toLowerCase().includes(searchTerm.toLowerCase()) ||
     c.taxId.toLowerCase().includes(searchTerm.toLowerCase())]. *)
Definition matchesSearch (term : string) (c : Client.t) : bool :=
  JS.includes (JS.toLowerCase (Client.name c)) (JS.toLowerCase term)
  || JS.includes (JS.toLowerCase (Client.taxId c)) (JS.toLowerCase term).

(** The clients listed under the search bar. *)
Definition filteredClients (w : World) : list Client.t :=
  filter (fun c => Is_true (matchesSearch (searchTerm w) c)) (clients w).

End ClientManager.

(** ** The product manager ([ProductManager], App.tsx lines 268-354) *)

Module ProductManager.

(** A [FileReader] started by [handleFileUpload]. *)
Record Reader : Type := mkReader {
  captured : list Product.t;
  fileText : string;
  loaded : bool
}.

Record World : Type := mkWorld {
  products : list Product.t;
  isModalOpen : bool;
  searchTerm : string;
  formData : PartialProduct.t;
  readers : list Reader;
  store : storage.t;
  alerts : list string
}.

(** The component as first rendered: [useState(storage.getProducts())]. *)
Definition mount (s : storage.t) : World :=
  mkWorld (storage.getProducts s) false "" PartialProduct.initial [] s [].

Definition alert (msg : string) (w : World) : World :=
  mkWorld (products w) (isModalOpen w) (searchTerm w) (formData w) (readers w)
          (store w) (alerts w ++ [msg]).

Definition setFormData (fd : PartialProduct.t) (w : World) : World :=
  mkWorld (products w) (isModalOpen w) (searchTerm w) fd (readers w) (store w) (alerts w).

Definition setIsModalOpen (b : bool) (w : World) : World :=
  mkWorld (products w) b (searchTerm w) (formData w) (readers w) (store w) (alerts w).

Definition setSearchTerm (t : string) (w : World) : World :=
  mkWorld (products w) (isModalOpen w) t (formData w) (readers w) (store w) (alerts w).

Definition setProducts (ps : list Product.t) (w : World) : World :=
  mkWorld ps (isModalOpen w) (searchTerm w) (formData w) (readers w) (store w) (alerts w).

Definition setReaders (rs : list Reader) (w : World) : World :=
  mkWorld (products w) (isModalOpen w) (searchTerm w) (formData w) rs (store w) (alerts w).

Definition saveProducts (ps : list Product.t) (w : World) : World :=
  mkWorld (products w) (isModalOpen w) (searchTerm w) (formData w) (readers w)
          (storage.saveProducts ps (store w)) (alerts w).

(** The form's inputs call this with [e.target.value], a string. *)
Definition handleInputChange (field : keyofProduct) (value : string) (w : World) : World :=
  setFormData (PartialProduct.set field value (formData w)) w.

Definition msgName : string := "El nombre del producto es obligatorio.".
Definition msgCode : string :=
  "El campo 'Código' (SKU o SAT) es obligatorio y no puede estar vacío.".
Definition msgPrice : string := "El precio debe ser un número positivo mayor a 0.".

(** [typeof formData.price === 'string' ? parseFloat(formData.price)
    : formData.price]; [None] is [undefined]. *)
Definition priceValue (fd : PartialProduct.t) : option number :=
  match PartialProduct.price fd with
  | Some (PriceText s) => Some (Num.parseFloat s)
  | Some (PriceNumber n) => Some n
  | None => None
  end.

(** [priceValue === undefined || isNaN(priceValue) || priceValue <= 0]. *)
Definition badPrice (pv : option number) : bool :=
  match pv with
  | None => true
  | Some n => Num.isNaN n || Num.leb n Num.zero
  end.

Definition newProduct (now : string) (fd : PartialProduct.t) (pv : number) : Product.t :=
  Product.mk now
    (default "" (PartialProduct.code fd))
    (default "" (PartialProduct.name fd))
    pv
    (Some (JS.orElse (PartialProduct.unit fd) "H87"))
    (Some (JS.orElse (PartialProduct.description fd) "")).

Definition addProduct (now : string) (w : World) : World :=
  let fd := formData w in
  if JS.blank (PartialProduct.name fd) then alert msgName w
  else if JS.blank (PartialProduct.code fd) then alert msgCode w
  else
    match priceValue fd with
    | Some pv =>
        if badPrice (Some pv) then alert msgPrice w
        else
          let updated := products w ++ [newProduct now fd pv] in
          setIsModalOpen false
            (setFormData PartialProduct.initial
               (saveProducts updated (setProducts updated w)))
    | None => alert msgPrice w
    end.

(** One data line of the CSV text. *)
Definition productOfLine (rowId : string) (line : string) : option Product.t :=
  let cols := JS.split "," line in
  if (length cols <? 2)%nat || JS.blank (cols !! 0%nat) then None
  else Some (Product.mk rowId
               (JS.orElse (JS.trim <$> cols !! 2%nat) "CSV-IMP")
               (JS.trim (default "" (cols !! 0%nat)))
               (Num.orElse
                  (match cols !! 1%nat with
                   | Some c => Num.parseFloat (JS.trim c)
                   | None => NaN
                   end)
                  Num.zero)
               (Some "H87")
               None).

Definition newProducts (rowIds : nat -> string) (text : string) : list Product.t :=
  filterNotNull
    (imap (fun i line => productOfLine (rowIds i) line)
          (JS.slice1 (JS.split "010" text))).

(** The body of [reader.onload], with the [products] the handler closed
    over. *)
Definition onload (captured : list Product.t) (rowIds : nat -> string)
           (text : string) (w : World) : World :=
  let np := newProducts rowIds text in
  if (0 <? length np)%nat then
    let updated := captured ++ np in
    alert (natToString (length np) +:+ " productos importados correctamente.")
      (saveProducts updated (setProducts updated w))
  else w.

Definition handleFileUpload (file : option string) (w : World) : World :=
  match file with
  | None => w
  | Some text => setReaders (readers w ++ [mkReader (products w) text false]) w
  end.

(** The load event of the k-th reader: its callback runs, once. *)
Definition readerLoad (k : nat) (rowIds : nat -> string) (w : World) : World :=
  match readers w !! k with
  | Some r =>
      if loaded r then w
      else onload (captured r) rowIds (fileText r)
             (setReaders (<[k := mkReader (captured r) (fileText r) true]> (readers w)) w)
  | None => w
  end.

(** An upload whose reader loads before any other event. *)
Definition importCsv (rowIds : nat -> string) (text : string) (w : World) : World :=
  readerLoad (length (readers w)) rowIds (handleFileUpload (Some text) w).

Inductive Event : Type :=
| InputChange (field : keyofProduct) (value : string)
| AddProduct (now : string)
| FileUpload (file : option string)
| ReaderLoad (k : nat) (rowIds : nat -> string)
| ModalOpen (b : bool)
| Search (t : string).

Definition step (w : World) (e : Event) : World :=
  match e with
  | InputChange f v => handleInputChange f v w
  | AddProduct now => addProduct now w
  | FileUpload file => handleFileUpload file w
  | ReaderLoad k ids => readerLoad k ids w
  | ModalOpen b => setIsModalOpen b w
  | Search t => setSearchTerm t w
  end.

Definition run (s : storage.t) (es : list Event) : World :=
  fold_left step es (mount s).

(** The test of [filteredProducts]: the term occurs in the name or in the
    code, letter case apart. *)
Definition matchesSearch (term : string) (p : Product.t) : bool :=
  JS.includes (JS.toLowerCase (Product.name p)) (JS.toLowerCase term)
  || JS.includes (JS.toLowerCase (Product.code p)) (JS.toLowerCase term).

(** The products listed under the search bar. *)
Definition filteredProducts (w : World) : list Product.t :=
  filter (fun p => Is_true (matchesSearch (searchTerm w) p)) (products w).

(** The catalogue of units of measure, [UNIT_TYPES], as (code, label). *)
Definition UNIT_TYPES : list (string * string) :=
  [ ("H87", "Pieza (H87)");
    ("E48", "Unidad de servicio (E48)");
    ("KGM", "Kilogramo (KGM)");
    ("LTR", "Litro (LTR)");
    ("MTR", "Metro (MTR)");
    ("MTK", "Metro Cuadrado (MTK)");
    ("XBX", "Caja (XBX)");
    ("HUR", "Hora (HUR)");
    ("ZZ", "Otro (Definir)") ].

(** [UNIT_TYPES.find(u => u.code === unit)]; an [undefined] unit equals no
    code. *)
Definition findUnit (unit : option string) : option (string * string) :=
  match unit with
  | Some u => List.find (fun entry => String.eqb (fst entry) u) UNIT_TYPES
  | None => None
  end.

(** The unit shown on a product card:
    [UNIT_TYPES.find(u => u.code === p.unit)?.label || p.unit || 'Pieza']. *)
Definition unitLabel (p : Product.t) : string :=
  JS.orElse (snd <$> findUnit (Product.unit p)) (JS.orElse (Product.unit p) "Pieza").

End ProductManager.

(** ** The dashboard ([Dashboard], App.tsx lines 476-513) *)

Module Dashboard.

(** A bar of the chart: [{ name: i.date, total: i.total }]. *)
Record ChartPoint : Type := mkPoint { name : string; total : number }.

Definition chartData (invoices : list Invoice.t) : list ChartPoint :=
  (fun i => mkPoint (Invoice.date i) (Invoice.total i)) <$> invoices.

(** "Ventas Totales": [invoices.reduce((acc, curr) => acc + curr.total, 0)]. *)
Definition totalSales (invoices : list Invoice.t) : number :=
  fold_left (fun acc curr => Binary64.add acc (Invoice.total curr)) invoices Num.zero.


(** "Ticket Promedio":
    [invoices.length ? (invoices.reduce((a,c) => a+c.total,0) / invoices.length) : 0]. *)
Definition averageTicket (invoices : list Invoice.t) : number :=
  if Num.truthy (Num.ofNat (length invoices)) then
    Binary64.div
      (fold_left (fun a c => Binary64.add a (Invoice.total c)) invoices Num.zero)
      (Num.ofNat (length invoices))
  else Num.zero.

End Dashboard.

(** ** The application shell ([App], App.tsx lines 556-577 and 650) *)

Module App.

Inductive Tab : Type :=
| dashboard | invoices | clients | products | permissions | settings.

(** The three [useState] cells of [App], and the [setTimeout] callbacks of
    [handlePrint] that have not run yet. *)
Record State : Type := mkState {
  activeTab : Tab;
  printInvoice : option Invoice.t;
  isMobileMenuOpen : bool;
  printTimers : nat
}.

Definition initial : State := mkState dashboard None false 0.

(** [handlePrint]: the invoice goes to the print view and a timer is set for
    [window.print()]. *)
Definition handlePrint (invoice : Invoice.t) (s : State) : State :=
  mkState (activeTab s) (Some invoice) (isMobileMenuOpen s) (S (printTimers s)).

(** [handleNavClick]: the tab is selected and the mobile menu closed. *)
Definition handleNavClick (tab : Tab) (s : State) : State :=
  mkState tab (printInvoice s) false (printTimers s).

(** The listener of the window's [afterprint] event. *)
Definition handleAfterPrint (s : State) : State :=
  mkState (activeTab s) None (isMobileMenuOpen s) (printTimers s).

Definition setIsMobileMenuOpen (b : bool) (s : State) : State :=
  mkState (activeTab s) (printInvoice s) b (printTimers s).

(** A timer of [handlePrint] runs: [window.print()] is called. *)
Definition timerFires (s : State) : State :=
  mkState (activeTab s) (printInvoice s) (isMobileMenuOpen s) (pred (printTimers s)).

Inductive Event : Type :=
| Print (invoice : Invoice.t)
| NavClick (tab : Tab)
| AfterPrint
| MenuOpen (b : bool)
| TimerFires.

Definition step (s : State) (e : Event) : State :=
  match e with
  | Print invoice => handlePrint invoice s
  | NavClick tab => handleNavClick tab s
  | AfterPrint => handleAfterPrint s
  | MenuOpen b => setIsMobileMenuOpen b s
  | TimerFires => timerFires s
  end.

(** The main application carries the class [hidden] while an invoice is in
    the print view. *)
Definition mainHidden (s : State) : bool :=
  match printInvoice s with Some _ => true | None => false end.

(** The text of the header:
    [activeTab === 'settings' ? 'Configuración'
     : activeTab === 'permissions' ? 'Seguridad' : activeTab]. *)
Definition title (tab : Tab) : string :=
  match tab with
  | settings => "Configuración"
  | permissions => "Seguridad"
  | dashboard => "dashboard"
  | invoices => "invoices"
  | clients => "clients"
  | products => "products"
  end.

End App.

(** ** The invoice engine

    [./components/InvoiceManager], which computes totals, numbers invoices and
    changes their status, is not among the sources; the three modules below
    follow sections 4.1 to 4.3 of the specification. *)

Module MoneyArithmetic.

Record Totals : Type := mkTotals {
  subtotal : number;
  taxAmount : number;
  retentionAmount : number;
  total : number
}.

Inductive ValidationError : Type :=
| NegativeTaxRate
| NegativeRetentionRate.

(** Modelled from the spec: [round2], rounding to two decimals with halves
    upwards, absent from the sources; written as [Math.round(x * 100) / 100]
    computes it. *)
Definition round2 (a : number) : number :=
  match a with
  | Fin q => Fin (Qred (inject_Z (Qfloor (q * 100 + (1 # 2))) / 100))
  | _ => a
  end.

(** Modelled from the spec: the line total fixed when an item is created,
    "quantity * unitPrice, rounded to 2 decimals at item-creation time". *)
Definition itemTotal (quantity unitPrice : number) : number :=
  round2 (Num.mul quantity unitPrice).

Definition newItem (id productId productName : string)
           (quantity unitPrice : number) : InvoiceItem.t :=
  InvoiceItem.mk id productId productName quantity unitPrice
                 (itemTotal quantity unitPrice).

(** Modelled from the spec: the totals computation of section 4.1, absent
    from the sources.  The subtotal adds up the stored item totals in item
    order; tax and retention are rounded once, on the subtotal; a negative
    rate is rejected. *)
Definition computeTotals (items : list InvoiceItem.t)
           (taxRate retentionRate : number) : ValidationError + Totals :=
  if Num.ltb taxRate Num.zero then inl NegativeTaxRate
  else if Num.ltb retentionRate Num.zero then inl NegativeRetentionRate
  else
    let subtotal :=
      fold_left (fun acc item => Num.add acc (InvoiceItem.total item)) items Num.zero in
    let taxAmount := round2 (Num.mul subtotal taxRate) in
    let retentionAmount := round2 (Num.mul subtotal retentionRate) in
    inr (mkTotals subtotal taxAmount retentionAmount
                  (Num.sub (Num.add subtotal taxAmount) retentionAmount)).

End MoneyArithmetic.

(** The sum of a list of numbers, written as a recursion on the list. *)
Fixpoint sumOf (l : list number) : number :=
  match l with
  | [] => Num.zero
  | x :: l' => Num.add x (sumOf l')
  end.

Module Numbering.

(** Modelled from the spec: the "numeric suffix" by which numbers are
    compared, the value of the digits a text ends with (0 when it ends with
    none): every digit extends the value read so far, any other character
    resets it. *)
Definition suffixStep (acc : nat) (c : ascii) : nat :=
  if Num.isDigit c then 10 * acc + (nat_of_ascii c - 48) else 0.

Fixpoint scanSuffix (s : string) (acc : nat) : nat :=
  match s with
  | EmptyString => acc
  | String c s' => scanSuffix s' (suffixStep acc c)
  end.

Definition numericSuffix (s : string) : nat := scanSuffix s 0.

Fixpoint repeatChar (c : ascii) (n : nat) : string :=
  match n with
  | O => EmptyString
  | S n' => String c (repeatChar c n')
  end.

(** [s.padStart(width, c)]. *)
Definition padStart (width : nat) (c : ascii) (s : string) : string :=
  repeatChar c (width - String.length s) +:+ s.

Definition maxSuffix (existingInvoices : list Invoice.t) : nat :=
  fold_right Nat.max 0 ((fun i => numericSuffix (Invoice.number i)) <$> existingInvoices).

(** Modelled from the spec: the numbering authority of section 4.2, absent
    from the sources: the prefix [INV-] and, padded to four digits, the
    larger of [count + 1] and [maximum numeric suffix + 1]. *)
Definition nextNumber (existingInvoices : list Invoice.t) : string :=
  "INV-" +:+
    padStart 4 "0"
      (natToString (Nat.max (length existingInvoices + 1)
                            (maxSuffix existingInvoices + 1))).

Definition withNumber (n : string) (i : Invoice.t) : Invoice.t :=
  Invoice.mk (Invoice.id i) n (Invoice.clientId i) (Invoice.clientName i)
    (Invoice.clientAddress i) (Invoice.clientTaxId i) (Invoice.date i)
    (Invoice.items i) (Invoice.subtotal i) (Invoice.taxRate i)
    (Invoice.taxName i) (Invoice.taxAmount i) (Invoice.retentionRate i)
    (Invoice.retentionName i) (Invoice.retentionAmount i) (Invoice.total i)
    (Invoice.status i).

(** Modelled from the spec: numbering an invoice and persisting it, the
    collection being replaced by itself followed by the new invoice. *)
Definition persistNext (i : Invoice.t) (existingInvoices : list Invoice.t)
  : list Invoice.t :=
  existingInvoices ++ [withNumber (nextNumber existingInvoices) i].

(** Modelled from the spec: [nextNumber] applied [n] times, each result
    persisted; [content k] is the k-th invoice before it has a number. *)
Fixpoint issue (content : nat -> Invoice.t) (n : nat)
         (existingInvoices : list Invoice.t) : list Invoice.t :=
  match n with
  | O => existingInvoices
  | S k => persistNext (content k) (issue content k existingInvoices)
  end.

(** Modelled from the spec: the deletion of the highest-numbered invoice;
    every invoice that carries the highest numeric suffix is removed. *)
Definition deleteHighest (existingInvoices : list Invoice.t) : list Invoice.t :=
  filter
    (fun i => numericSuffix (Invoice.number i) <> maxSuffix existingInvoices)
    existingInvoices.

End Numbering.

Module Lifecycle.

Record LifecycleError : Type := mkError { from : Status; to : Status }.

(** Modelled from the spec: the transitions of section 4.3 under the
    recommended policy of no exit from [paid]: draft to pending, pending to
    paid, draft to paid, pending to draft. *)
Definition allowed (a b : Status) : bool :=
  match a, b with
  | draft, pending | pending, paid | draft, paid | pending, draft => true
  | _, _ => false
  end.

Definition withStatus (s : Status) (i : Invoice.t) : Invoice.t :=
  Invoice.mk (Invoice.id i) (Invoice.number i) (Invoice.clientId i)
    (Invoice.clientName i) (Invoice.clientAddress i) (Invoice.clientTaxId i)
    (Invoice.date i) (Invoice.items i) (Invoice.subtotal i) (Invoice.taxRate i)
    (Invoice.taxName i) (Invoice.taxAmount i) (Invoice.retentionRate i)
    (Invoice.retentionName i) (Invoice.retentionAmount i) (Invoice.total i) s.

(** Modelled from the spec: the lifecycle check of section 4.3, absent from
    the sources.  A request either yields the invoice in its new status or a
    [LifecycleError] naming the pair. *)
Definition transition (target : Status) (i : Invoice.t) : LifecycleError + Invoice.t :=
  if allowed (Invoice.status i) target then inr (withStatus target i)
  else inl (mkError (Invoice.status i) target).

(** Modelled from the spec: a request against the stored invoice, giving the
    outcome reported to the caller and the invoice as it is afterwards; an
    error leaves the invoice as it was. *)
Definition request (target : Status) (i : Invoice.t)
  : option LifecycleError * Invoice.t :=
  match transition target i with
  | inr i' => (None, i')
  | inl e => (Some e, i)
  end.

End Lifecycle.

(** ** Vocabulary of the properties *)

(** Numeric equality: the same special value, or equal rationals.  Stored
    numbers are compared with computed ones by it, since a computed rational
    is kept in lowest terms. *)
Definition numEq (a b : number) : Prop :=
  match a, b with
  | NaN, NaN | PInf, PInf | NInf, NInf => True
  | Fin x, Fin y => (x == y)%Q
  | _, _ => False
  end.

Definition isFinite (a : number) : bool :=
  match a with Fin _ => true | _ => false end.

(** [price > 0]. *)
Definition positive (n : number) : bool := Num.ltb Num.zero n.

(** The pieces of a split joined again with the separator. *)
Fixpoint joinWith (sep : ascii) (pieces : list string) : string :=
  match pieces with
  | [] => EmptyString
  | [piece] => piece
  | piece :: rest => piece +:+ String sep (joinWith sep rest)
  end.

(** The sum of the totals of the invoices dated [d]. *)
Definition amountOn (d : string) (invoices : list Invoice.t) : number :=
  sumOf (Invoice.total <$> filter (fun i => Invoice.date i = d) invoices).

(** A series that buckets a collection by date: one point per distinct
    invoice date, carrying the sum of the totals of that date. *)
Definition bucketedByDate (invoices : list Invoice.t)
           (series : list Dashboard.ChartPoint) : Prop :=
  NoDup (Dashboard.name <$> series) /\
  (forall d, d ∈ (Dashboard.name <$> series) <-> d ∈ (Invoice.date <$> invoices)) /\
  (forall p, p ∈ series ->
             numEq (Dashboard.total p) (amountOn (Dashboard.name p) invoices)).

(** A form field that holds text which is not empty once trimmed. *)
Definition nonEmptyAfterTrim (x : option string) : Prop :=
  exists s, x = Some s /\ JS.trim s <> "".

(** The fields a client must have at creation, in the order of the form. *)
Definition requiredClientFields : list keyofClient :=
  [kName; kTaxId; kEmail; kAddress; kZip].

(** The message that reports a missing required field. *)
Definition missingMessage (k : keyofClient) : string :=
  match k with
  | kName => ClientManager.msgName
  | kTaxId => ClientManager.msgTaxId
  | kEmail => ClientManager.msgEmail
  | kAddress => ClientManager.msgAddress
  | kZip => ClientManager.msgZip
  | _ => ""
  end.

(** Every record of [before] is in [after], unchanged and at its position. *)
Definition keepsRecords {A} (before after : list A) : Prop :=
  forall i x, before !! i = Some x -> after !! i = Some x.

(** [after] is [before] followed by new records. *)
Definition onlyAppends {A} (before after : list A) : Prop :=
  before `prefix_of` after /\ keepsRecords before after.

(** [n] is greater, by numeric suffix, than the number of every invoice of
    the collection. *)
Definition greaterThanAll (n : string) (invoices : list Invoice.t) : Prop :=
  forall i, i ∈ invoices ->
            Numbering.numericSuffix (Invoice.number i) < Numbering.numericSuffix n.

(** Numbering and persisting [n] invoices on top of [existing] keeps the
    existing ones and adds [n] invoices with [n] distinct numbers, each drawn
    by [nextNumber] from the collection as it then was and greater than every
    number in it. *)
Definition issuesDistinctIncreasing (content : nat -> Invoice.t) (n : nat)
           (existing : list Invoice.t) : Prop :=
  let final := Numbering.issue content n existing in
  let issued := drop (length existing) final in
  take (length existing) final = existing /\
  length issued = n /\
  NoDup (Invoice.number <$> issued) /\
  (forall k x, issued !! k = Some x ->
               Invoice.number x = Numbering.nextNumber (take (length existing + k) final) /\
               greaterThanAll (Invoice.number x) (take (length existing + k) final)).

(** The number of occurrences of a character in a text. *)
Fixpoint countChar (c : ascii) (s : string) : nat :=
  match s with
  | EmptyString => 0
  | String a s' => (if Ascii.eqb a c then 1 else 0) + countChar c s'
  end.

(** The text holds one of the letters a to z. *)
Fixpoint hasLowerAscii (s : string) : bool :=
  match s with
  | EmptyString => false
  | String c s' =>
      ((97 <=? nat_of_ascii c)%nat && (nat_of_ascii c <=? 122)%nat) || hasLowerAscii s'
  end.

(** Every byte of the text is an ASCII character. *)
Fixpoint isAsciiText (s : string) : bool :=
  match s with
  | EmptyString => true
  | String c s' => (nat_of_ascii c <? 128)%nat && isAsciiText s'
  end.

(** A CSV row whose first column is not blank. *)
Definition rowHasName (line : string) : bool :=
  negb (JS.blank (JS.split "," line !! 0%nat)).

(** An event of the shell that is neither a print request nor the end of a
    print. *)
Definition isNavigation (e : App.Event) : bool :=
  match e with
  | App.NavClick _ | App.MenuOpen _ | App.TimerFires => true
  | App.Print _ | App.AfterPrint => false
  end.

(** A CSV row with at least two columns whose first column is not blank. *)
Definition rowHasProduct (line : string) : bool :=
  negb ((length (JS.split "," line) <? 2)%nat || JS.blank (JS.split "," line !! 0%nat)).

(** ** Sample data *)

(** The line feed. *)
Definition LF : string := String "010" EmptyString.

Definition emptyStorage : storage.t := storage.mk [] [] [].

Definition clientAcme : Client.t :=
  Client.mk "1" "Acme" "ACM010101AAA" "ventas@acme.mx" "Calle 1" None None None
            (Some "México").

Definition productServicio : Product.t :=
  Product.mk "1" "S-1" "Servicio" (Fin 100) (Some "E48") None.

(** A storage that already holds one client and one product. *)
Definition seededStorage : storage.t :=
  storage.mk [clientAcme] [productServicio] [].

(** The events that type every required field into the client form. *)
Definition fillClientForm : list ClientManager.Event :=
  [ ClientManager.ModalOpen true;
    ClientManager.InputChange kName "Empresa SA de CV";
    ClientManager.InputChange kTaxId "abc010101xy9";
    ClientManager.InputChange kEmail "contacto@empresa.com";
    ClientManager.InputChange kAddress "Av. Reforma 123";
    ClientManager.InputChange kZip "06600" ].

(** The client form after every required field has been typed in. *)
Definition filledClientForm : ClientManager.World :=
  ClientManager.run emptyStorage fillClientForm.

(** The client form with the zip overwritten by blanks. *)
Definition clientFormWithoutZip : ClientManager.World :=
  ClientManager.run emptyStorage (fillClientForm ++ [ClientManager.InputChange kZip "  "]).

(** The events that type name, code and price into the product form. *)
Definition filledProductEvents : list ProductManager.Event :=
  [ ProductManager.ModalOpen true;
    ProductManager.InputChange pName "Licencia de Software";
    ProductManager.InputChange pCode "81112200";
    ProductManager.InputChange pPrice "1500.50" ].

(** The identifier drawn for the k-th row of an import. *)
Definition rowIdsExample (k : nat) : string := "1700000000000r" +:+ natToString k.

(** A client CSV whose only data row carries a lower-case tax id. *)
Definition lowerCaseTaxIdCsv : string :=
  "Nombre,RFC,Email,Direccion" +:+ LF +:+ "Acme,abc010101xyz,ventas@acme.mx,Calle 1".

(** A client CSV with a row whose tax-id column is blank and a row that has
    no tax-id column. *)
Definition defaultedTaxIdCsv : string :=
  "Nombre,RFC,Email" +:+ LF +:+ "Acme, ,ventas@acme.mx" +:+ LF +:+ "Beta".

(** A product CSV whose data rows carry the prices 0, -5 and no number. *)
Definition nonPositivePriceCsv : string :=
  "Nombre,Precio,Codigo" +:+ LF +:+ "Servicio,0,S-1" +:+ LF +:+ "Descuento,-5,D-1"
  +:+ LF +:+ "Regalo,gratis".

(** An invoice with the given identity, date and total. *)
Definition sampleInvoice (id number date : string) (total : Num.t) : Invoice.t :=
  Invoice.mk id number "c1" "Cliente Uno" "Av. Reforma 123" "XAXX010101000" date []
             total Num.zero "IVA" Num.zero Num.zero "ISR" Num.zero total pending.

Definition draftInvoice : Invoice.t :=
  Lifecycle.withStatus draft (sampleInvoice "1" "INV-0001" "2024-05-01" (Fin 232)).

(** Two invoices of the same day, and two invoices of different days. *)
Definition sameDay : list Invoice.t :=
  [ sampleInvoice "1" "INV-0001" "2024-05-01" (Fin 100);
    sampleInvoice "2" "INV-0002" "2024-05-01" (Fin 50) ].

Definition twoDays : list Invoice.t :=
  [ sampleInvoice "1" "INV-0001" "2024-05-01" (Fin 100);
    sampleInvoice "2" "INV-0002" "2024-05-02" (Fin 50) ].

(** Invoices whose totals are the binary64 numbers written 0.1 and 0.2, and
    two invoices of 1.7e308 each. *)
Definition pointOneAndPointTwo : list Invoice.t :=
  [ sampleInvoice "1" "INV-0001" "2024-05-01" (Fin (3602879701896397 # 36028797018963968));
    sampleInvoice "2" "INV-0002" "2024-05-02" (Fin (3602879701896397 # 18014398509481984)) ].

Definition twoHuge : list Invoice.t :=
  [ sampleInvoice "1" "INV-0001" "2024-05-01" (Fin (inject_Z (8517715530038134 * 2 ^ 971)));
    sampleInvoice "2" "INV-0002" "2024-05-02" (Fin (inject_Z (8517715530038134 * 2 ^ 971))) ].

(** Three invoices numbered 1 to 3. *)
Definition threeInvoices : list Invoice.t :=
  [ sampleInvoice "a" "INV-0001" "2024-05-01" (Fin 100);
    sampleInvoice "b" "INV-0002" "2024-05-02" (Fin 50);
    sampleInvoice "c" "INV-0003" "2024-05-03" (Fin 75) ].

(** The item of the scenario: two units at 100.00. *)
Definition twoAtHundred : InvoiceItem.t :=
  MoneyArithmetic.newItem "i1" "p1" "Servicio" (Fin 2) (Fin 100).

(** ** The built-ins behave as intended *)

Example parseFloat_ex :
  Num.parseFloat " 12.50abc" = Fin (25 # 2) /\ Num.parseFloat "-5" = Fin (-5 # 1) /\
  Num.parseFloat "abc" = NaN /\ Num.parseFloat "" = NaN /\ Num.parseFloat "." = NaN /\
  Num.parseFloat ".5e1" = Fin 5 /\ Num.parseFloat "1e" = Fin 1 /\
  Num.parseFloat "2E-2" = Fin (1 # 50) /\ Num.parseFloat "-Infinity" = NInf /\
  Num.parseFloat "0" = Fin 0.
Proof. repeat split; reflexivity. Qed.
(** Binary64 on a tie, on a quotient that is not exact, on underflow, on
    overflow and on zero divisors. *)
Example binary64_cases :
  Binary64.add (Fin (inject_Z (2 ^ 53))) (Fin 1) = Fin (inject_Z (2 ^ 53)) /\
  Binary64.add (Fin (inject_Z (2 ^ 53 + 2))) (Fin 1) = Fin (inject_Z (2 ^ 53 + 4)) /\
  Binary64.div (Fin 1) (Fin 3) = Fin (6004799503160661 # 18014398509481984) /\
  Binary64.div (Fin (Qmake 1 (Z.to_pos (2 ^ 1074)))) (Fin 2) = Fin 0 /\
  Binary64.add (Fin (inject_Z ((2 ^ 53 - 1) * 2 ^ 971)))
               (Fin (inject_Z ((2 ^ 53 - 1) * 2 ^ 971))) = PInf /\
  Binary64.div (Fin 1) (Fin 0) = PInf /\
  Binary64.div (Fin 0) (Fin 0) = NaN.
Proof. repeat split; vm_compute; reflexivity. Qed.

Example trim_ex : JS.trim "  a b	 " = "a b" /\ JS.trim (JS.bytes [194;160;65;13;10]) = "A".
Proof. split; reflexivity. Qed.
Example split_ex : JS.split "," "a,,b" = ["a"; ""; "b"] /\ JS.split "," "" = [""] /\ JS.split "," "a," = ["a"; ""].
Proof. repeat split; reflexivity. Qed.
Example upper_ex : JS.toUpperCase "abc010101xy9-Z" = "ABC010101XY9-Z".
Proof. reflexivity. Qed.

Lemma stripPrefix_length (p s r : string) :
  JS.stripPrefix p s = Some r -> String.length s = String.length p + String.length r.
Proof.
  revert s. induction p as [|a p IH]; intros s; cbn.
  - now intros [= ->].
  - destruct s as [|b s]; [discriminate|].
    destruct (Ascii.eqb a b); [|discriminate].
    intros H. cbn. now rewrite (IH _ H).
Qed.

Lemma stripAny_shorter (ws : list string) (s r : string) :
  Forall (fun p => p <> "") ws ->
  JS.stripAny ws s = Some r -> String.length r < String.length s.
Proof.
  induction 1 as [|p ws Hp _ IH]; cbn; [discriminate|].
  destruct (JS.stripPrefix p s) as [r'|] eqn:E; [|exact IH].
  intros [= ->]. apply stripPrefix_length in E.
  destruct p; [congruence|]. cbn in E. lia.
Qed.

Lemma stripAny_empty (ws : list string) :
  Forall (fun p => p <> "") ws -> JS.stripAny ws "" = None.
Proof.
  induction 1 as [|p ws Hp _ IH]; cbn; [reflexivity|].
  destruct p; [congruence|exact IH].
Qed.

(** With a fuel of the length of the text, [dropLeading] stops only when no
    white space is left in front. *)
Lemma dropLeading_done (ws : list string) (fuel : nat) (s : string) :
  Forall (fun p => p <> "") ws -> String.length s <= fuel ->
  JS.stripAny ws (JS.dropLeading ws fuel s) = None.
Proof.
  intros Hws. revert s. induction fuel as [|fuel IH]; intros s Hlen; cbn.
  - destruct s; [now apply stripAny_empty | cbn in Hlen; lia].
  - destruct (JS.stripAny ws s) as [r|] eqn:E; [|exact E].
    apply IH. pose proof (stripAny_shorter ws s r Hws E). lia.
Qed.

Lemma whiteSpace_nonempty : Forall (fun p => p <> "") JS.whiteSpace.
Proof. unfold JS.whiteSpace. cbn. repeat constructor; discriminate. Qed.

Lemma trimStart_done (s : string) :
  JS.stripAny JS.whiteSpace (JS.trimStart s) = None.
Proof. apply dropLeading_done; [apply whiteSpace_nonempty | reflexivity]. Qed.

Lemma rev_app_length (a b : string) :
  String.length (String.rev_app a b) = String.length a + String.length b.
Proof.
  revert b. induction a as [|c a IH]; intros b; cbn; [reflexivity|].
  rewrite IH. cbn. lia.
Qed.

Lemma trimEnd_done (s : string) :
  JS.stripAny (map String.rev JS.whiteSpace)
    (JS.dropLeading (map String.rev JS.whiteSpace) (String.length s) (String.rev s)) = None.
Proof.
  apply dropLeading_done.
  - unfold JS.whiteSpace. cbn. repeat constructor; discriminate.
  - unfold String.rev. rewrite rev_app_length. cbn. lia.
Qed.

Lemma split_cons (sep : ascii) (s : string) :
  exists piece pieces, JS.split sep s = piece :: pieces.
Proof.
  destruct s as [|c s]; cbn; [eauto|].
  destruct (Ascii.eqb c sep); [eauto|].
  destruct (JS.split sep s); eauto.
Qed.

(** Splitting loses nothing: the pieces joined by the separator are the
    text. *)
Lemma split_join (sep : ascii) (s : string) : joinWith sep (JS.split sep s) = s.
Proof.
  induction s as [|c s IH]; cbn [JS.split]; [reflexivity|].
  destruct (split_cons sep s) as (piece & pieces & Es). rewrite Es in *.
  destruct (Ascii.eqb c sep) eqn:E.
  - apply Ascii.eqb_eq in E as ->.
    change (String sep (joinWith sep (piece :: pieces)) = String sep s).
    now rewrite IH.
  - destruct pieces as [|piece' pieces].
    + cbn in *. now rewrite IH.
    + change (String c (joinWith sep (piece :: piece' :: pieces)) = String c s).
      now rewrite IH.
Qed.

(** ** Arithmetic of [number] *)

Lemma add_comm (a b : number) : Num.add a b = Num.add b a.
Proof.
  destruct a, b; simpl; try reflexivity.
  f_equal. apply Qred_complete. ring.
Qed.

Lemma add_assoc (a b c : number) :
  Num.add a (Num.add b c) = Num.add (Num.add a b) c.
Proof.
  destruct a, b, c; simpl; try reflexivity.
  f_equal. apply Qred_complete. rewrite !Qred_correct. ring.
Qed.

Lemma add_zero_r (a : number) : numEq (Num.add a Num.zero) a.
Proof.
  destruct a; simpl; trivial.
  rewrite Qred_correct. ring.
Qed.

Lemma sumOf_fold_right (l : list number) : sumOf l = fold_right Num.add Num.zero l.
Proof. induction l as [|x l IH]; simpl; [reflexivity | now rewrite IH]. Qed.

(** A left fold of [+] from 0, as [reduce] computes it, is the sum. *)
Lemma reduce_add_sum {A} (f : A -> number) (l : list A) :
  fold_left (fun acc x => Num.add acc (f x)) l Num.zero = sumOf (f <$> l).
Proof.
  rewrite sumOf_fold_right.
  rewrite <- (fold_symmetric Num.add add_assoc Num.zero (fun y => add_comm Num.zero y)).
  generalize Num.zero.
  induction l as [|x l IH]; intros acc; simpl; [reflexivity | apply IH].
Qed.


Lemma sumOf_finite (l : list number) :
  forallb isFinite l = true -> exists q, sumOf l = Fin q.
Proof.
  induction l as [|x l IH]; simpl; intros H.
  - now exists 0%Q.
  - apply andb_true_iff in H as [Hx Hl].
    destruct (IH Hl) as [q Hq]. rewrite Hq.
    destruct x; try discriminate. simpl. eauto.
Qed.

(** ** Invoice totals *)

Lemma ltb_zero_nonneg (q : Q) : (0 <= q)%Q -> Num.ltb (Fin q) Num.zero = false.
Proof.
  intros H. cbn. apply negb_false_iff. now apply Qle_bool_iff.
Qed.

Lemma round2_mul_zero (q : Q) : MoneyArithmetic.round2 (Num.mul Num.zero (Fin q)) = Num.zero.
Proof.
  cbn. assert (E : Qred (0 * q) = 0%Q).
  { transitivity (Qred 0); [apply Qred_complete; ring | reflexivity]. }
  rewrite E. reflexivity.
Qed.

(** C1. For rates that are not negative the totals are computed, with the
    subtotal the sum of the item totals, the tax and the retention the
    subtotal times their rate rounded to two decimals, and the total the
    subtotal plus the tax minus the retention; without items the subtotal and
    the total are 0; and two units at 100.00 with a tax of 0.16 and no
    retention give 200.00, 32.00 and 232.00. *)
Theorem computeTotals_correct (items : list InvoiceItem.t) (taxRate retentionRate : Q) :
  (0 <= taxRate)%Q -> (0 <= retentionRate)%Q ->
  (exists t,
     MoneyArithmetic.computeTotals items (Fin taxRate) (Fin retentionRate) = inr t /\
     MoneyArithmetic.subtotal t = sumOf (InvoiceItem.total <$> items) /\
     MoneyArithmetic.taxAmount t
     = MoneyArithmetic.round2 (Num.mul (MoneyArithmetic.subtotal t) (Fin taxRate)) /\
     MoneyArithmetic.retentionAmount t
     = MoneyArithmetic.round2 (Num.mul (MoneyArithmetic.subtotal t) (Fin retentionRate)) /\
     MoneyArithmetic.total t
     = Num.sub (Num.add (MoneyArithmetic.subtotal t) (MoneyArithmetic.taxAmount t))
               (MoneyArithmetic.retentionAmount t) /\
     (items = [] ->
      MoneyArithmetic.subtotal t = Num.zero /\ MoneyArithmetic.total t = Num.zero)) /\
  MoneyArithmetic.computeTotals [twoAtHundred] (Fin (16 # 100)) (Fin 0)
  = inr (MoneyArithmetic.mkTotals (Fin 200) (Fin 32) (Fin 0) (Fin 232)).
Proof.
  intros Ht Hr. split; [|reflexivity].
  unfold MoneyArithmetic.computeTotals.
  rewrite (ltb_zero_nonneg _ Ht), (ltb_zero_nonneg _ Hr).
  eexists. split; [reflexivity|]. cbn [MoneyArithmetic.subtotal
    MoneyArithmetic.taxAmount MoneyArithmetic.retentionAmount MoneyArithmetic.total].
  split; [apply (reduce_add_sum InvoiceItem.total)|].
  do 3 (split; [reflexivity|]).
  intros ->. cbn [fold_left]. rewrite !round2_mul_zero. split; reflexivity.
Qed.

Lemma computeTotals_correct_witness :
  exists t,
    MoneyArithmetic.computeTotals [twoAtHundred; twoAtHundred] (Fin (16 # 100)) (Fin (1 # 10))
    = inr t /\
    MoneyArithmetic.subtotal t = Fin 400 /\
    MoneyArithmetic.total t = Fin 424.
Proof.
  destruct (proj1 (computeTotals_correct [twoAtHundred; twoAtHundred] (16 # 100) (1 # 10)
                     ltac:(discriminate) ltac:(discriminate)))
    as (t & Ht & Hsub & Htax & Hret & Htot & _).
  exists t. split; [exact Ht|].
  injection Ht as <-. split; reflexivity.
Defined.


(** ** Invoice numbers *)

Lemma scanSuffix_app (a b : string) (acc : nat) :
  Numbering.scanSuffix (a +:+ b) acc = Numbering.scanSuffix b (Numbering.scanSuffix a acc).
Proof.
  revert acc. induction a as [|c a IH]; intros acc; cbn; [reflexivity | apply IH].
Qed.

(** Reading back the decimal digits of a number gives the number. *)
Lemma scanSuffix_uint (d : Decimal.uint) (acc : nat) :
  Numbering.scanSuffix (NilEmpty.string_of_uint d) acc = Nat.of_uint_acc d acc.
Proof.
  revert acc.
  induction d as [|d IH|d IH|d IH|d IH|d IH|d IH|d IH|d IH|d IH|d IH]; intros acc;
    cbn [NilEmpty.string_of_uint Numbering.scanSuffix Nat.of_uint_acc];
    [reflexivity|..];
    rewrite IH, Nat.tail_mul_spec; f_equal;
    unfold Numbering.suffixStep;
    match goal with
    | |- context [Num.isDigit ?c] =>
        let b := eval vm_compute in (Num.isDigit c) in
        let k := eval vm_compute in (nat_of_ascii c - 48) in
        change (Num.isDigit c) with b; change (nat_of_ascii c - 48) with k
    end; cbv iota; lia.
Qed.

Lemma numericSuffix_natToString (n : nat) :
  Numbering.scanSuffix (natToString n) 0 = n.
Proof.
  unfold natToString. rewrite scanSuffix_uint.
  apply DecimalNat.Unsigned.of_to.
Qed.

Lemma scanSuffix_zeros (n : nat) :
  Numbering.scanSuffix (Numbering.repeatChar "0" n) 0 = 0.
Proof. induction n as [|n IH]; cbn; [reflexivity | exact IH]. Qed.

Lemma numericSuffix_nextNumber (existing : list Invoice.t) :
  Numbering.numericSuffix (Numbering.nextNumber existing)
  = Nat.max (length existing + 1) (Numbering.maxSuffix existing + 1).
Proof.
  unfold Numbering.numericSuffix, Numbering.nextNumber, Numbering.padStart.
  rewrite !scanSuffix_app. cbn [Numbering.scanSuffix].
  change (Numbering.suffixStep _ "-") with 0.
  rewrite scanSuffix_zeros. apply numericSuffix_natToString.
Qed.

Lemma maxSuffix_ge (existing : list Invoice.t) (i : Invoice.t) :
  i ∈ existing ->
  Numbering.numericSuffix (Invoice.number i) <= Numbering.maxSuffix existing.
Proof.
  unfold Numbering.maxSuffix.
  induction existing as [|j existing IH]; intros Hi.
  - now apply elem_of_nil in Hi.
  - cbn. apply elem_of_cons in Hi as [->|Hi]; [lia|].
    specialize (IH Hi). lia.
Qed.

Lemma nextNumber_greater (existing : list Invoice.t) :
  greaterThanAll (Numbering.nextNumber existing) existing.
Proof.
  intros i Hi. rewrite numericSuffix_nextNumber.
  pose proof (maxSuffix_ge existing i Hi). lia.
Qed.

Lemma nextNumber_fresh (existing : list Invoice.t) :
  Numbering.nextNumber existing ∉ (Invoice.number <$> existing).
Proof.
  intros Hin. apply list_elem_of_fmap_1 in Hin as (i & Heq & Hi).
  pose proof (nextNumber_greater existing i Hi) as Hlt.
  rewrite Heq in Hlt. lia.
Qed.

(** The collection after [n] issues is the existing one followed by [n]
    invoices, each numbered by [nextNumber] on the collection before it. *)
Lemma issue_app (content : nat -> Invoice.t) (n : nat) (existing : list Invoice.t) :
  exists issued,
    Numbering.issue content n existing = existing ++ issued /\
    length issued = n /\
    forall k x, issued !! k = Some x ->
                Invoice.number x = Numbering.nextNumber (existing ++ take k issued).
Proof.
  induction n as [|n (issued & Heq & Hlen & Hnum)].
  - exists []. cbn. rewrite app_nil_r. repeat split.
    intros k x Hk. now rewrite lookup_nil in Hk.
  - cbn [Numbering.issue]. unfold Numbering.persistNext. rewrite Heq.
    exists (issued ++ [Numbering.withNumber (Numbering.nextNumber (existing ++ issued))
                                            (content n)]).
    split; [now rewrite app_assoc|].
    split; [rewrite length_app; cbn; lia|].
    intros k x Hk. apply lookup_snoc_Some in Hk as [[Hlt Hk]|[-> <-]].
    + rewrite take_app_le by lia. now apply Hnum.
    + rewrite take_app_length. reflexivity.
Qed.

(** C2. [nextNumber] is greater, by numeric suffix, than every number of the
    collection and is not the number of any of its invoices; [n] invoices
    numbered and persisted in turn get [n] distinct numbers, each greater than
    every number the collection held when it was drawn, also when the
    collection first lost its highest-numbered invoices; and from no invoices
    the first two numbers are INV-0001 and INV-0002. *)
Theorem nextNumber_unique_increasing (content : nat -> Invoice.t) (n : nat)
        (existing : list Invoice.t) :
  greaterThanAll (Numbering.nextNumber existing) existing /\
  (Numbering.nextNumber existing ∉ (Invoice.number <$> existing)) /\
  issuesDistinctIncreasing content n existing /\
  issuesDistinctIncreasing content n (Numbering.deleteHighest existing) /\
  Numbering.nextNumber [] = "INV-0001" /\
  Numbering.nextNumber (Numbering.persistNext (content 0) []) = "INV-0002".
Proof.
  assert (G : forall existing, issuesDistinctIncreasing content n existing).
  { clear existing. intros existing. unfold issuesDistinctIncreasing.
    destruct (issue_app content n existing) as (issued & -> & Hlen & Hnum).
    rewrite take_app_length, drop_app_length.
    assert (Hstep : forall k x, issued !! k = Some x ->
              Invoice.number x = Numbering.nextNumber (take (length existing + k) (existing ++ issued)) /\
              greaterThanAll (Invoice.number x) (take (length existing + k) (existing ++ issued))).
    { intros k x Hk. rewrite take_app_add. rewrite (Hnum k x Hk).
      split; [reflexivity | apply nextNumber_greater]. }
    split; [reflexivity|]. split; [exact Hlen|]. split; [|exact Hstep].
    apply NoDup_alt. intros a b num Ha Hb.
    rewrite list_lookup_fmap in Ha, Hb.
    destruct (issued !! a) as [x|] eqn:Hx; [|discriminate].
    destruct (issued !! b) as [y|] eqn:Hy; [|discriminate].
    cbn in Ha, Hb. injection Ha as Ha. injection Hb as Hb.
    destruct (Nat.lt_trichotomy a b) as [Hlt|[Heq|Hgt]]; [exfalso|exact Heq|exfalso].
    - destruct (Hstep b y Hy) as [_ Hgr].
      assert (Hin : x ∈ take (length existing + b) (existing ++ issued)).
      { rewrite take_app_add. apply elem_of_app. right.
        apply elem_of_take. exists a. split; [exact Hx | exact Hlt]. }
      specialize (Hgr x Hin). rewrite Ha, Hb in Hgr. lia.
    - destruct (Hstep a x Hx) as [_ Hgr].
      assert (Hin : y ∈ take (length existing + a) (existing ++ issued)).
      { rewrite take_app_add. apply elem_of_app. right.
        apply elem_of_take. exists b. split; [exact Hy | exact Hgt]. }
      specialize (Hgr y Hin). rewrite Ha, Hb in Hgr. lia. }
  split; [apply nextNumber_greater|].
  split; [apply nextNumber_fresh|].
  split; [apply G|]. split; [apply G|].
  split; reflexivity.
Qed.

Lemma nextNumber_unique_increasing_witness :
  Invoice.number <$> Numbering.deleteHighest threeInvoices = ["INV-0001"; "INV-0002"] /\
  Invoice.number <$>
    drop 2 (Numbering.issue (fun _ => draftInvoice) 3 (Numbering.deleteHighest threeInvoices))
  = ["INV-0003"; "INV-0004"; "INV-0005"] /\
  NoDup (Invoice.number <$>
           drop (length (Numbering.deleteHighest threeInvoices))
             (Numbering.issue (fun _ => draftInvoice) 3
                (Numbering.deleteHighest threeInvoices))).
Proof.
  split; [reflexivity|]. split; [reflexivity|].
  pose proof (nextNumber_unique_increasing (fun _ => draftInvoice) 3 threeInvoices)
    as (_ & _ & _ & (_ & _ & Hnd & _) & _).
  exact Hnd.
Defined.

(** ** The status state machine *)

(** C3. From [draft] the requests to [pending] and then to [paid] succeed in
    sequence; from [paid] the request to [pending] fails with the
    [LifecycleError] naming paid and pending and leaves the invoice as it
    was; and every request either is allowed and yields the invoice in the
    requested status, or is not allowed and yields the error naming its pair
    with the invoice unchanged, so that no refused request passes for a
    success. *)
Theorem lifecycle_transitions (i : Invoice.t) :
  (Invoice.status i = draft ->
   exists i1 i2, Lifecycle.transition pending i = inr i1 /\
                 Lifecycle.transition paid i1 = inr i2 /\
                 Invoice.status i1 = pending /\ Invoice.status i2 = paid) /\
  (Invoice.status i = paid ->
   Lifecycle.transition pending i = inl (Lifecycle.mkError paid pending) /\
   Lifecycle.request pending i = (Some (Lifecycle.mkError paid pending), i)) /\
  (forall target,
     (Lifecycle.allowed (Invoice.status i) target = true /\
      Lifecycle.request target i = (None, Lifecycle.withStatus target i) /\
      Invoice.status (Lifecycle.withStatus target i) = target) \/
     (Lifecycle.allowed (Invoice.status i) target = false /\
      Lifecycle.request target i
      = (Some (Lifecycle.mkError (Invoice.status i) target), i))).
Proof.
  unfold Lifecycle.request, Lifecycle.transition.
  split; [|split].
  - intros Hd. rewrite Hd. cbn. eauto 10.
  - intros Hp. rewrite Hp. cbn. auto.
  - intros target.
    destruct (Lifecycle.allowed (Invoice.status i) target); [left|right]; auto.
Qed.

Lemma lifecycle_transitions_witness :
  (exists i1 i2, Lifecycle.transition pending draftInvoice = inr i1 /\
                 Lifecycle.transition paid i1 = inr i2 /\
                 Invoice.status i1 = pending /\ Invoice.status i2 = paid) /\
  Lifecycle.request pending (Lifecycle.withStatus paid draftInvoice)
  = (Some (Lifecycle.mkError paid pending), Lifecycle.withStatus paid draftInvoice).
Proof.
  split.
  - apply (proj1 (lifecycle_transitions draftInvoice)). reflexivity.
  - apply (proj1 (proj2 (lifecycle_transitions (Lifecycle.withStatus paid draftInvoice)))).
    reflexivity.
Defined.

(** ** The report aggregator *)






(** The two metrics on totals of 0.1 and 0.2, where the sum is rounded, on
    150 over two invoices, and on two totals of 1.7e308, where it
    overflows. *)
Example dashboard_rounding :
  Dashboard.totalSales pointOneAndPointTwo = Fin (1351079888211149 # 4503599627370496) /\
  Dashboard.averageTicket pointOneAndPointTwo = Fin (1351079888211149 # 9007199254740992) /\
  Dashboard.totalSales twoDays = Fin 150 /\
  Dashboard.averageTicket twoDays = Fin 75 /\
  Dashboard.totalSales twoHuge = PInf /\
  Dashboard.averageTicket twoHuge = PInf.
Proof. repeat split; vm_compute; reflexivity. Qed.

(** ** The chart series *)

Lemma numEq_sym (a b : number) : numEq a b -> numEq b a.
Proof. destruct a, b; simpl; auto. intros H. now symmetry. Qed.

Lemma chartData_names (invoices : list Invoice.t) :
  Dashboard.name <$> Dashboard.chartData invoices = Invoice.date <$> invoices.
Proof.
  unfold Dashboard.chartData. rewrite <- list_fmap_compose.
  apply list_fmap_ext. intros ? ? _. reflexivity.
Qed.

Lemma filter_date_absent (invoices : list Invoice.t) (d : string) :
  d ∉ (Invoice.date <$> invoices) ->
  filter (fun j => Invoice.date j = d) invoices = [].
Proof.
  induction invoices as [|j invoices IH]; intros Hd; [reflexivity|].
  rewrite fmap_cons in Hd. apply not_elem_of_cons in Hd as [Hne Hd].
  rewrite filter_cons_False by congruence. now apply IH.
Qed.

Lemma filter_date_unique (invoices : list Invoice.t) (i : Invoice.t) :
  NoDup (Invoice.date <$> invoices) -> i ∈ invoices ->
  filter (fun j => Invoice.date j = Invoice.date i) invoices = [i].
Proof.
  induction invoices as [|j invoices IH]; intros Hnd Hin.
  - now apply elem_of_nil in Hin.
  - rewrite fmap_cons in Hnd. apply NoDup_cons in Hnd as [Hj Hnd].
    apply elem_of_cons in Hin as [->|Hin].
    + rewrite filter_cons_True by reflexivity. f_equal.
      now apply filter_date_absent.
    + rewrite filter_cons_False; [now apply IH|].
      intros Heq. apply Hj. rewrite Heq. now apply list_elem_of_fmap_2.
Qed.

(** C5, as stated, fails: two invoices of the same day give two points of
    that day, not one point carrying their sum. *)
Lemma chartData_not_bucketed :
  Dashboard.chartData sameDay =
    [ Dashboard.mkPoint "2024-05-01" (Fin 100); Dashboard.mkPoint "2024-05-01" (Fin 50) ] /\
  ~ bucketedByDate sameDay (Dashboard.chartData sameDay).
Proof.
  split; [reflexivity|].
  intros [Hnd _]. cbn in Hnd.
  apply NoDup_cons in Hnd as [Hnotin _].
  apply Hnotin. apply elem_of_cons. now left.
Qed.

(** C5, amended. The chart series has one point per invoice, in collection
    order, carrying that invoice's date and total; when no two invoices share
    a date it is the series bucketed by date: one point per distinct date,
    whose amount is the sum of the totals of that date. *)
Theorem chartData_one_point_per_invoice (invoices : list Invoice.t) :
  length (Dashboard.chartData invoices) = length invoices /\
  (forall k i, invoices !! k = Some i ->
     Dashboard.chartData invoices !! k
     = Some (Dashboard.mkPoint (Invoice.date i) (Invoice.total i))) /\
  (NoDup (Invoice.date <$> invoices) ->
   bucketedByDate invoices (Dashboard.chartData invoices)).
Proof.
  split; [apply length_fmap|]. split.
  - intros k i Hk. unfold Dashboard.chartData.
    rewrite list_lookup_fmap, Hk. reflexivity.
  - intros Hnd. unfold bucketedByDate. rewrite chartData_names.
    split; [exact Hnd|]. split; [tauto|].
    intros p Hp. apply list_elem_of_fmap_1 in Hp as (i & -> & Hi). cbn.
    unfold amountOn. rewrite (filter_date_unique _ _ Hnd Hi). cbn.
    apply numEq_sym, add_zero_r.
Qed.

Lemma chartData_one_point_per_invoice_witness :
  NoDup (Invoice.date <$> twoDays) /\
  bucketedByDate twoDays (Dashboard.chartData twoDays).
Proof.
  assert (H : NoDup (Invoice.date <$> twoDays)).
  { cbn. repeat constructor; rewrite ?elem_of_cons, ?elem_of_nil; intuition discriminate. }
  split; [exact H|].
  exact (proj2 (proj2 (chartData_one_point_per_invoice twoDays)) H).
Defined.


(** ** Creating a client through the form *)

Lemma blank_false (x : option string) :
  JS.blank x = false <-> nonEmptyAfterTrim x.
Proof.
  unfold JS.blank, JS.truthyStr, nonEmptyAfterTrim.
  destruct x as [s|].
  - rewrite negb_involutive. split.
    + intros H. exists s. split; [reflexivity|].
      now apply String.eqb_neq.
    + intros (s' & [= <-] & Hne). now apply String.eqb_neq.
  - split; [discriminate|]. now intros (s' & ? & _).
Qed.

Lemma blank_true (x : option string) :
  JS.blank x = true <-> ~ nonEmptyAfterTrim x.
Proof.
  rewrite <- blank_false. destruct (JS.blank x); split; congruence.
Qed.

(** C6. [addClient] appends the client and saves the collection when name,
    tax id, email, address and zip all hold text that is not empty once
    trimmed; when one of them is missing or blank it reports one such field,
    by the message of that field, and leaves the component's clients, the
    form and the storage as they were; the messages of distinct required
    fields differ. *)
Theorem addClient_validation (now : string) (w : ClientManager.World) :
  let fd := ClientManager.formData w in
  let w' := ClientManager.addClient now w in
  ((forall k, k ∈ requiredClientFields -> nonEmptyAfterTrim (PartialClient.get k fd)) ->
   ClientManager.clients w' = ClientManager.clients w ++ [ClientManager.newClient now fd] /\
   storage.getClients (ClientManager.store w')
   = ClientManager.clients w ++ [ClientManager.newClient now fd] /\
   ClientManager.alerts w' = ClientManager.alerts w) /\
  (forall k, k ∈ requiredClientFields -> ~ nonEmptyAfterTrim (PartialClient.get k fd) ->
   ClientManager.store w' = ClientManager.store w /\
   ClientManager.clients w' = ClientManager.clients w /\
   ClientManager.formData w' = fd /\
   exists k', k' ∈ requiredClientFields /\
              ~ nonEmptyAfterTrim (PartialClient.get k' fd) /\
              ClientManager.alerts w' = ClientManager.alerts w ++ [missingMessage k']) /\
  (forall k1 k2, k1 ∈ requiredClientFields -> k2 ∈ requiredClientFields ->
                 missingMessage k1 = missingMessage k2 -> k1 = k2).
Proof.
  intros fd w'. subst w'. unfold ClientManager.addClient. fold fd.
  split; [|split].
  - intros Hall.
    assert (Hb : forall k, k ∈ requiredClientFields ->
                           JS.blank (PartialClient.get k fd) = false).
    { intros k Hk. apply blank_false, Hall, Hk. }
    pose proof (Hb kName) as H1. pose proof (Hb kTaxId) as H2.
    pose proof (Hb kEmail) as H3. pose proof (Hb kAddress) as H4.
    pose proof (Hb kZip) as H5. cbn [PartialClient.get] in *.
    unfold requiredClientFields in *.
    rewrite H1, H2, H3, H4, H5 by (rewrite !elem_of_cons; tauto).
    repeat split; reflexivity.
  - intros k Hk Hmiss.
    assert (Hsome : exists k', k' ∈ requiredClientFields /\
                               JS.blank (PartialClient.get k' fd) = true).
    { exists k. split; [exact Hk|]. now apply blank_true. }
    clear k Hk Hmiss.
    destruct (JS.blank (PartialClient.name fd)) eqn:E1;
      [ repeat split; try reflexivity; exists kName |
    destruct (JS.blank (PartialClient.taxId fd)) eqn:E2;
      [ repeat split; try reflexivity; exists kTaxId |
    destruct (JS.blank (PartialClient.email fd)) eqn:E3;
      [ repeat split; try reflexivity; exists kEmail |
    destruct (JS.blank (PartialClient.address fd)) eqn:E4;
      [ repeat split; try reflexivity; exists kAddress |
    destruct (JS.blank (PartialClient.zip fd)) eqn:E5;
      [ repeat split; try reflexivity; exists kZip | ]]]]];
      try (split; [ unfold requiredClientFields; rewrite !elem_of_cons; tauto
                  | split; [ now apply blank_true | reflexivity ] ]).
    exfalso. destruct Hsome as (k' & Hk' & Hb).
    unfold requiredClientFields in Hk'.
    rewrite !elem_of_cons, elem_of_nil in Hk'.
    destruct Hk' as [->|[->|[->|[->|[->|[]]]]]]; cbn in Hb; congruence.
  - intros k1 k2 H1 H2. unfold requiredClientFields in *.
    rewrite !elem_of_cons, elem_of_nil in H1, H2.
    destruct H1 as [->|[->|[->|[->|[->|[]]]]]];
      destruct H2 as [->|[->|[->|[->|[->|[]]]]]];
      cbn; intros Heq; try reflexivity; discriminate Heq.
Qed.

Lemma addClient_validation_witness :
  ClientManager.clients (ClientManager.addClient "1700000000000" filledClientForm)
  = [ Client.mk "1700000000000" "Empresa SA de CV" "ABC010101XY9" "contacto@empresa.com"
                "Av. Reforma 123" (Some "") (Some "06600") (Some "") (Some "México") ] /\
  ClientManager.store (ClientManager.addClient "1700000000000" clientFormWithoutZip)
  = emptyStorage /\
  ClientManager.alerts (ClientManager.addClient "1700000000000" clientFormWithoutZip)
  = [ClientManager.msgZip].
Proof.
  pose proof (addClient_validation "1700000000000" filledClientForm) as [Hok _].
  pose proof (addClient_validation "1700000000000" clientFormWithoutZip) as [_ [Hbad _]].
  cbv zeta in Hok, Hbad.
  split; [|split].
  - refine (proj1 (Hok _)).
    intros k Hk. unfold requiredClientFields in Hk.
    rewrite !elem_of_cons, elem_of_nil in Hk.
    destruct Hk as [->|[->|[->|[->|[->|[]]]]]];
      (eexists; split; [reflexivity | vm_compute; discriminate]).
  - refine (proj1 (Hbad kZip _ _)).
    + unfold requiredClientFields. rewrite !elem_of_cons. tauto.
    + intros (t & Ht & Hne). vm_compute in Ht.
      injection Ht as <-. apply Hne. reflexivity.
  - reflexivity.
Defined.


(** ** Tax ids and prices across the two creation paths *)

(** Splits the goal on every condition the handler tests. *)
Ltac case_conditions :=
  repeat match goal with
         | |- context [if ?b then _ else _] => destruct b
         end.

(** An appended list is never the list it extends. *)
Lemma app_singleton_neq {A} (l : list A) (x : A) : l <> l ++ [x].
Proof.
  intros H. apply (f_equal length) in H. rewrite length_app in H. cbn in H. lia.
Qed.

(** On the form path the tax id held by the form is always an upper-cased
    input. *)
Lemma form_taxId_uppercase (s : storage.t) (es : list ClientManager.Event) :
  match PartialClient.taxId (ClientManager.formData (ClientManager.run s es)) with
  | Some t => exists v, t = JS.toUpperCase v
  | None => True
  end.
Proof.
  unfold ClientManager.run.
  assert (G : forall w,
    match PartialClient.taxId (ClientManager.formData w) with
    | Some t => exists v, t = JS.toUpperCase v | None => True end ->
    match PartialClient.taxId (ClientManager.formData (fold_left ClientManager.step es w)) with
    | Some t => exists v, t = JS.toUpperCase v | None => True end).
  { induction es as [|e es IH]; intros w Hw; [exact Hw|].
    cbn [fold_left]. apply IH. destruct e as [f v|now|file|k ids|b|t]; cbn.
    - destruct f; cbn; eauto.
    - unfold ClientManager.addClient. case_conditions; cbn; auto.
    - destruct file as [text|]; exact Hw.
    - unfold ClientManager.readerLoad, ClientManager.onload.
      destruct (ClientManager.readers w !! k) as [r|]; [|exact Hw].
      case_conditions; exact Hw.
    - exact Hw.
    - exact Hw. }
  apply G. exact I.
Qed.

(** Every client the form stores carries an upper-cased tax id. *)
Lemma form_client_taxId_uppercase (s : storage.t) (es : list ClientManager.Event)
      (now : string) (c : Client.t) :
  ClientManager.clients (ClientManager.addClient now (ClientManager.run s es))
  = ClientManager.clients (ClientManager.run s es) ++ [c] ->
  exists v, Client.taxId c = JS.toUpperCase v.
Proof.
  pose proof (form_taxId_uppercase s es) as Hup.
  set (w := ClientManager.run s es) in *.
  unfold ClientManager.addClient.
  destruct (JS.blank (PartialClient.name _));
    [|destruct (JS.blank (PartialClient.taxId _)) eqn:Etax;
      [|destruct (JS.blank (PartialClient.email _));
        [|destruct (JS.blank (PartialClient.address _));
          [|destruct (JS.blank (PartialClient.zip _))]]]].
  1-5: intros Hp; cbn in Hp; now apply app_singleton_neq in Hp.
  intros Hp. cbn in Hp. apply app_inj_tail in Hp as [_ <-]. cbn.
  destruct (PartialClient.taxId (ClientManager.formData w)) as [t|]; [exact Hup|].
  discriminate Etax.
Qed.

(** C7, at the failing input: the CSV import stores the tax id of the row as
    it is written, here in lower case, while its upper-case form differs. *)
Theorem csv_import_keeps_taxId_case :
  let w := ClientManager.importCsv rowIdsExample lowerCaseTaxIdCsv
             (ClientManager.mount emptyStorage) in
  Client.taxId <$> storage.getClients (ClientManager.store w) = ["abc010101xyz"] /\
  JS.toUpperCase "abc010101xyz" = "ABC010101XYZ".
Proof. split; reflexivity. Qed.

(** X10. On the form path a product is stored only with a price above 0, and
    a missing, non-numeric, zero or negative price leaves the products and the
    storage as they were and reports the price. *)
Lemma addProduct_price (now : string) (w : ProductManager.World) :
  let w' := ProductManager.addProduct now w in
  (ProductManager.badPrice (ProductManager.priceValue (ProductManager.formData w)) = true ->
   ProductManager.store w' = ProductManager.store w /\
   ProductManager.products w' = ProductManager.products w /\
   exists msg, ProductManager.alerts w' = ProductManager.alerts w ++ [msg]) /\
  (forall p, ProductManager.products w' = ProductManager.products w ++ [p] ->
             positive (Product.price p) = true).
Proof.
  cbv zeta. unfold ProductManager.addProduct.
  destruct (JS.blank (PartialProduct.name _)); [|destruct (JS.blank (PartialProduct.code _))].
  1,2: split; [intros _; repeat split; eauto|].
  1,2: intros p Hp; cbn in Hp; now apply app_singleton_neq in Hp.
  destruct (ProductManager.priceValue _) as [pv|].
  - destruct (ProductManager.badPrice (Some pv)) eqn:E.
    + split; [intros _; repeat split; eauto|].
      intros p Hp; cbn in Hp; now apply app_singleton_neq in Hp.
    + split; [discriminate|].
      intros p Hp. cbn in Hp. apply app_inj_tail in Hp as [_ <-]. cbn.
      cbn in E. apply orb_false_iff in E as [E1 E2].
      unfold positive. destruct pv; cbn in *; try congruence.
      now rewrite E2.
  - split; [intros _; repeat split; eauto|].
    intros p Hp; cbn in Hp; now apply app_singleton_neq in Hp.
Qed.

(** C8, at the failing input: the CSV import stores the rows priced 0, -5 and
    "gratis" with the prices 0, -5 and 0, none of them above 0. *)
Theorem csv_import_stores_nonpositive_price :
  let w := ProductManager.importCsv rowIdsExample nonPositivePriceCsv
             (ProductManager.mount emptyStorage) in
  Product.price <$> storage.getProducts (ProductManager.store w)
  = [Fin 0; Fin (-5 # 1); Fin 0] /\
  forallb positive (Product.price <$> storage.getProducts (ProductManager.store w)) = false.
Proof. split; reflexivity. Qed.

(** ** The CSV import of clients *)

Lemma elem_of_filterNotNull {A} (l : list (option A)) (x : A) :
  x ∈ filterNotNull l <-> Some x ∈ l.
Proof.
  induction l as [|[y|] l IH]; cbn.
  - rewrite !elem_of_nil. tauto.
  - rewrite !elem_of_cons, IH. split; intros [H|H]; auto; left; congruence.
  - rewrite elem_of_cons, IH. split; [auto|]. intros [H|H]; [discriminate|exact H].
Qed.

Lemma elem_of_newClients (rowIds : nat -> string) (text : string) (c : Client.t) :
  c ∈ ClientManager.newClients rowIds text <->
  exists k line, JS.slice1 (JS.split "010" text) !! k = Some line /\
                 ClientManager.clientOfLine (rowIds k) line = Some c.
Proof.
  unfold ClientManager.newClients.
  rewrite elem_of_filterNotNull, elem_of_lookup_imap.
  split; intros (k & line & H1 & H2); exists k, line; auto.
Qed.

(** What the load of a reader that has not loaded yet leaves in storage. *)
Lemma readerLoad_clients (w : ClientManager.World) (k : nat)
      (r : ClientManager.Reader) (rowIds : nat -> string) :
  ClientManager.readers w !! k = Some r -> ClientManager.loaded r = false ->
  storage.getClients (ClientManager.store (ClientManager.readerLoad k rowIds w))
  = match ClientManager.newClients rowIds (ClientManager.fileText r) with
    | [] => storage.getClients (ClientManager.store w)
    | c :: nc => ClientManager.captured r ++ c :: nc
    end.
Proof.
  intros Hr Hl. unfold ClientManager.readerLoad, ClientManager.onload.
  rewrite Hr, Hl.
  destruct (ClientManager.newClients rowIds (ClientManager.fileText r)); reflexivity.
Qed.

Lemma clientOfLine_Some (rowId line : string) (c : Client.t) :
  ClientManager.clientOfLine rowId line = Some c ->
  nonEmptyAfterTrim (JS.split "," line !! 0%nat) /\
  Client.country c = Some "México" /\
  (~ nonEmptyAfterTrim (JS.split "," line !! 1%nat) -> Client.taxId c = "XAXX010101000").
Proof.
  unfold ClientManager.clientOfLine.
  destruct (JS.blank (JS.split "," line !! 0%nat)) eqn:E0.
  - rewrite orb_true_r. discriminate.
  - destruct (length (JS.split "," line) <? 1)%nat; [discriminate|].
    cbn [orb]. intros [= <-]. cbn. split; [now apply blank_false|].
    split; [reflexivity|].
    intros Hmiss. apply blank_true in Hmiss.
    destruct (JS.split "," line !! 1%nat) as [t|]; cbn in *; [|reflexivity].
    destruct (JS.truthyStr (JS.trim t)); [discriminate|reflexivity].
Qed.

Lemma clientOfLine_nonblank (rowId line : string) :
  nonEmptyAfterTrim (JS.split "," line !! 0%nat) ->
  exists c, ClientManager.clientOfLine rowId line = Some c.
Proof.
  intros H. apply blank_false in H. unfold ClientManager.clientOfLine.
  rewrite H. destruct (split_cons "," line) as (piece & pieces & ->).
  cbn. eauto.
Qed.

(** C9. When the reader of a client CSV loads, every row after the header
    whose first column is not blank yields a stored client; that client's
    country is 'México', and its tax id is 'XAXX010101000' when the row's
    tax-id column is missing or blank; and what the load stores after the
    clients it had captured are the clients of such rows only. *)
Theorem csv_client_defaults (w : ClientManager.World) (k : nat)
        (r : ClientManager.Reader) (rowIds : nat -> string) :
  ClientManager.readers w !! k = Some r ->
  ClientManager.loaded r = false ->
  let w' := ClientManager.readerLoad k rowIds w in
  let rows := JS.slice1 (JS.split "010" (ClientManager.fileText r)) in
  (forall j line,
     rows !! j = Some line ->
     nonEmptyAfterTrim (JS.split "," line !! 0%nat) ->
     exists c, ClientManager.clientOfLine (rowIds j) line = Some c /\
               c ∈ storage.getClients (ClientManager.store w') /\
               Client.country c = Some "México" /\
               (~ nonEmptyAfterTrim (JS.split "," line !! 1%nat) ->
                Client.taxId c = "XAXX010101000")) /\
  (storage.getClients (ClientManager.store w') = storage.getClients (ClientManager.store w) \/
   exists imported,
     storage.getClients (ClientManager.store w') = ClientManager.captured r ++ imported /\
     forall c, c ∈ imported ->
       exists j line, rows !! j = Some line /\
                      nonEmptyAfterTrim (JS.split "," line !! 0%nat) /\
                      ClientManager.clientOfLine (rowIds j) line = Some c).
Proof.
  intros Hr Hl. cbv zeta. rewrite (readerLoad_clients w k r rowIds Hr Hl).
  split.
  - intros j line Hrow Hname.
    destruct (clientOfLine_nonblank (rowIds j) line Hname) as [c Hc].
    exists c. split; [exact Hc|].
    assert (Hin : c ∈ ClientManager.newClients rowIds (ClientManager.fileText r))
      by (apply elem_of_newClients; eauto).
    split; [|apply (clientOfLine_Some _ _ _ Hc)].
    destruct (ClientManager.newClients rowIds (ClientManager.fileText r)) as [|c' nc].
    + now apply elem_of_nil in Hin.
    + apply elem_of_app. now right.
  - destruct (ClientManager.newClients rowIds (ClientManager.fileText r))
      as [|c' nc] eqn:Enc; [now left|right].
    exists (c' :: nc). split; [reflexivity|].
    intros c Hc. rewrite <- Enc in Hc.
    apply elem_of_newClients in Hc as (j & line & Hrow & Hline).
    exists j, line. split; [exact Hrow|]. split; [|exact Hline].
    apply (clientOfLine_Some _ _ _ Hline).
Qed.

Lemma csv_client_defaults_witness :
  exists c, ClientManager.clientOfLine (rowIdsExample 1) "Beta" = Some c /\
            c ∈ storage.getClients (ClientManager.store (ClientManager.run emptyStorage
                  [ClientManager.FileUpload (Some defaultedTaxIdCsv);
                   ClientManager.ReaderLoad 0 rowIdsExample])) /\
            Client.country c = Some "México" /\
            Client.taxId c = "XAXX010101000".
Proof.
  destruct (proj1 (csv_client_defaults
                     (ClientManager.run emptyStorage
                        [ClientManager.FileUpload (Some defaultedTaxIdCsv)])
                     0%nat (ClientManager.mkReader [] defaultedTaxIdCsv false)
                     rowIdsExample eq_refl eq_refl)
              1%nat "Beta") as (c & Hc & Hin & Hcountry & Htax).
  - reflexivity.
  - exists "Beta". split; [reflexivity | vm_compute; discriminate].
  - exists c. split; [exact Hc|]. split; [exact Hin|]. split; [exact Hcountry|].
    apply Htax. intros (t & Ht & _). vm_compute in Ht. discriminate Ht.
Defined.

(** ** Adding records only appends *)

Lemma onlyAppends_app {A} (l added : list A) : onlyAppends l (l ++ added).
Proof.
  split; [now apply prefix_app_r|].
  intros i x Hi. now apply lookup_app_l_Some.
Qed.

Lemma onlyAppends_refl {A} (l : list A) : onlyAppends l l.
Proof. rewrite <- (app_nil_r l) at 2. apply onlyAppends_app. Qed.

Section ClientWorlds.

Import ClientManager.

(** The component's list and the stored collection agree after every
    event. *)
Lemma client_step_mirror (w : World) (e : Event) :
  clients w = storage.getClients (store w) ->
  clients (step w e) = storage.getClients (store (step w e)).
Proof.
  intros Hw. destruct e as [f v|now|file|k ids|b|t]; cbn; try exact Hw.
  - unfold addClient. case_conditions; cbn; auto.
  - destruct file; exact Hw.
  - unfold readerLoad, onload.
    destruct (readers w !! k) as [r|]; [|exact Hw].
    case_conditions; cbn; auto.
Qed.

Lemma clients_mirror_storage (s : storage.t) (es : list Event) :
  clients (run s es) = storage.getClients (store (run s es)).
Proof.
  unfold run. generalize (eq_refl : clients (mount s) = storage.getClients (store (mount s))).
  generalize (mount s). induction es as [|e es IH]; intros w Hw; [exact Hw|].
  cbn [fold_left]. apply IH, client_step_mirror, Hw.
Qed.

(** A reader stays where it is, with what it captured; only its [loaded]
    flag may change. *)
Lemma client_step_reader (w : World) (e : Event) (k : nat) (r : Reader) :
  readers w !! k = Some r ->
  exists b, readers (step w e) !! k = Some (mkReader (captured r) (fileText r) b).
Proof.
  intros Hr.
  assert (Hsame : exists b, readers w !! k = Some (mkReader (captured r) (fileText r) b)).
  { exists (loaded r). rewrite Hr. now destruct r. }
  destruct e as [f v|now|file|k' ids|b|t]; cbn; try exact Hsame.
  - unfold addClient. case_conditions; exact Hsame.
  - destruct file as [text|]; [|exact Hsame]. cbn.
    destruct Hsame as [b Hb]. exists b. now apply lookup_app_l_Some.
  - unfold readerLoad, onload.
    destruct (readers w !! k') as [r'|] eqn:Hr'; [|exact Hsame].
    destruct (loaded r'); [exact Hsame|].
    case_conditions; cbn.
    all: destruct (decide (k = k')) as [->|Hne];
      [ exists true; rewrite list_lookup_insert_eq by (eapply lookup_lt_Some; eauto);
        congruence
      | rewrite list_lookup_insert_ne by congruence; exact Hsame ].
Qed.

Lemma client_run_reader (es : list Event) (w : World) (k : nat) (r : Reader) :
  readers w !! k = Some r ->
  exists b, readers (fold_left step es w) !! k
            = Some (mkReader (captured r) (fileText r) b).
Proof.
  revert w r. induction es as [|e es IH]; intros w r Hr; cbn [fold_left].
  - exists (loaded r). rewrite Hr. now destruct r.
  - destruct (client_step_reader w e k r Hr) as [b Hb].
    apply (IH _ _ Hb).
Qed.

(** Whatever happens between the choice of a file and the load of its
    reader, the load stores nothing or stores the clients held when the
    file was chosen followed by the imported ones. *)
Lemma client_upload_appends (s : storage.t) (es es' : list Event)
      (text : string) (rowIds : nat -> string) :
  let w := run s es in
  let w2 := fold_left step es' (handleFileUpload (Some text) w) in
  let w3 := readerLoad (length (readers w)) rowIds w2 in
  storage.getClients (store w3) = storage.getClients (store w2) \/
  onlyAppends (storage.getClients (store w)) (storage.getClients (store w3)).
Proof.
  cbv zeta. pose proof (clients_mirror_storage s es) as Hm.
  set (w := run s es) in *.
  assert (Hr : readers (handleFileUpload (Some text) w) !! length (readers w)
               = Some (mkReader (clients w) text false)).
  { cbn. now rewrite list_lookup_middle. }
  destruct (client_run_reader es' _ _ _ Hr) as [b Hb].
  cbn [captured fileText] in Hb. destruct b.
  - left. unfold readerLoad. now rewrite Hb.
  - rewrite (readerLoad_clients _ _ _ rowIds Hb eq_refl). cbn [captured fileText].
    destruct (newClients rowIds text) as [|c nc]; [left; reflexivity|right].
    rewrite Hm. apply onlyAppends_app.
Qed.

End ClientWorlds.

Section ProductWorlds.

Import ProductManager.

Lemma readerLoad_products (w : World) (k : nat) (r : Reader) (rowIds : nat -> string) :
  readers w !! k = Some r -> loaded r = false ->
  storage.getProducts (store (readerLoad k rowIds w))
  = match newProducts rowIds (fileText r) with
    | [] => storage.getProducts (store w)
    | p :: np => captured r ++ p :: np
    end.
Proof.
  intros Hr Hl. unfold readerLoad, onload. rewrite Hr, Hl.
  destruct (newProducts rowIds (fileText r)); reflexivity.
Qed.

Lemma product_step_mirror (w : World) (e : Event) :
  products w = storage.getProducts (store w) ->
  products (step w e) = storage.getProducts (store (step w e)).
Proof.
  intros Hw. destruct e as [f v|now|file|k ids|b|t]; cbn; try exact Hw.
  - unfold addProduct.
    destruct (priceValue (formData w)); case_conditions; cbn; auto.
  - destruct file; exact Hw.
  - unfold readerLoad, onload.
    destruct (readers w !! k) as [r|]; [|exact Hw].
    case_conditions; cbn; auto.
Qed.

Lemma products_mirror_storage (s : storage.t) (es : list Event) :
  products (run s es) = storage.getProducts (store (run s es)).
Proof.
  unfold run.
  generalize (eq_refl : products (mount s) = storage.getProducts (store (mount s))).
  generalize (mount s). induction es as [|e es IH]; intros w Hw; [exact Hw|].
  cbn [fold_left]. apply IH, product_step_mirror, Hw.
Qed.

Lemma product_step_reader (w : World) (e : Event) (k : nat) (r : Reader) :
  readers w !! k = Some r ->
  exists b, readers (step w e) !! k = Some (mkReader (captured r) (fileText r) b).
Proof.
  intros Hr.
  assert (Hsame : exists b, readers w !! k = Some (mkReader (captured r) (fileText r) b)).
  { exists (loaded r). rewrite Hr. now destruct r. }
  destruct e as [f v|now|file|k' ids|b|t]; cbn; try exact Hsame.
  - unfold addProduct.
    destruct (priceValue (formData w)); case_conditions; exact Hsame.
  - destruct file as [text|]; [|exact Hsame]. cbn.
    destruct Hsame as [b Hb]. exists b. now apply lookup_app_l_Some.
  - unfold readerLoad, onload.
    destruct (readers w !! k') as [r'|] eqn:Hr'; [|exact Hsame].
    destruct (loaded r'); [exact Hsame|].
    case_conditions; cbn.
    all: destruct (decide (k = k')) as [->|Hne];
      [ exists true; rewrite list_lookup_insert_eq by (eapply lookup_lt_Some; eauto);
        congruence
      | rewrite list_lookup_insert_ne by congruence; exact Hsame ].
Qed.

Lemma product_run_reader (es : list Event) (w : World) (k : nat) (r : Reader) :
  readers w !! k = Some r ->
  exists b, readers (fold_left step es w) !! k
            = Some (mkReader (captured r) (fileText r) b).
Proof.
  revert w r. induction es as [|e es IH]; intros w r Hr; cbn [fold_left].
  - exists (loaded r). rewrite Hr. now destruct r.
  - destruct (product_step_reader w e k r Hr) as [b Hb].
    apply (IH _ _ Hb).
Qed.

Lemma product_upload_appends (s : storage.t) (es es' : list Event)
      (text : string) (rowIds : nat -> string) :
  let w := run s es in
  let w2 := fold_left step es' (handleFileUpload (Some text) w) in
  let w3 := readerLoad (length (readers w)) rowIds w2 in
  storage.getProducts (store w3) = storage.getProducts (store w2) \/
  onlyAppends (storage.getProducts (store w)) (storage.getProducts (store w3)).
Proof.
  cbv zeta. pose proof (products_mirror_storage s es) as Hm.
  set (w := run s es) in *.
  assert (Hr : readers (handleFileUpload (Some text) w) !! length (readers w)
               = Some (mkReader (products w) text false)).
  { cbn. now rewrite list_lookup_middle. }
  destruct (product_run_reader es' _ _ _ Hr) as [b Hb].
  cbn [captured fileText] in Hb. destruct b.
  - left. unfold readerLoad. now rewrite Hb.
  - rewrite (readerLoad_products _ _ _ rowIds Hb eq_refl). cbn [captured fileText].
    destruct (newProducts rowIds text) as [|p np]; [left; reflexivity|right].
    rewrite Hm. apply onlyAppends_app.
Qed.

End ProductWorlds.

(** For every world reached from the first render: adding a client or a
    product through the form saves nothing or saves the stored collection
    followed by the new record; and a CSV import, whatever events come
    between the choice of the file and the load of its reader, saves nothing
    or saves the collection stored when the file was chosen followed by the
    imported records; when the reader loads at once, the collection saved
    extends the one stored just before. *)
Theorem adding_only_appends (s : storage.t)
        (ces ces' : list ClientManager.Event) (pes pes' : list ProductManager.Event)
        (now text : string) (rowIds : nat -> string) :
  let cw := ClientManager.run s ces in
  let pw := ProductManager.run s pes in
  let cw2 := fold_left ClientManager.step ces' (ClientManager.handleFileUpload (Some text) cw) in
  let pw2 := fold_left ProductManager.step pes' (ProductManager.handleFileUpload (Some text) pw) in
  let cw3 := ClientManager.readerLoad (length (ClientManager.readers cw)) rowIds cw2 in
  let pw3 := ProductManager.readerLoad (length (ProductManager.readers pw)) rowIds pw2 in
  onlyAppends (storage.getClients (ClientManager.store cw))
              (storage.getClients (ClientManager.store (ClientManager.addClient now cw))) /\
  (storage.getClients (ClientManager.store cw3) = storage.getClients (ClientManager.store cw2) \/
   onlyAppends (storage.getClients (ClientManager.store cw))
               (storage.getClients (ClientManager.store cw3))) /\
  onlyAppends (storage.getClients (ClientManager.store cw))
              (storage.getClients
                 (ClientManager.store (ClientManager.importCsv rowIds text cw))) /\
  onlyAppends (storage.getProducts (ProductManager.store pw))
              (storage.getProducts (ProductManager.store (ProductManager.addProduct now pw))) /\
  (storage.getProducts (ProductManager.store pw3) = storage.getProducts (ProductManager.store pw2) \/
   onlyAppends (storage.getProducts (ProductManager.store pw))
               (storage.getProducts (ProductManager.store pw3))) /\
  onlyAppends (storage.getProducts (ProductManager.store pw))
              (storage.getProducts
                 (ProductManager.store (ProductManager.importCsv rowIds text pw))).
Proof.
  cbv zeta.
  pose proof (clients_mirror_storage s ces) as Hc.
  pose proof (products_mirror_storage s pes) as Hp.
  pose proof (client_upload_appends s ces ces' text rowIds) as Hcu.
  pose proof (client_upload_appends s ces [] text rowIds) as Hci.
  pose proof (product_upload_appends s pes pes' text rowIds) as Hpu.
  pose proof (product_upload_appends s pes [] text rowIds) as Hpi.
  cbv zeta in Hcu, Hci, Hpu, Hpi. cbn [fold_left] in Hci, Hpi.
  set (cw := ClientManager.run s ces) in *.
  set (pw := ProductManager.run s pes) in *.
  repeat split_and.
  - unfold ClientManager.addClient. case_conditions; cbn; try apply onlyAppends_refl.
    rewrite Hc. apply onlyAppends_app.
  - exact Hcu.
  - unfold ClientManager.importCsv.
    destruct Hci as [Heq|Happ]; [|exact Happ].
    rewrite Heq. apply onlyAppends_refl.
  - unfold ProductManager.addProduct.
    destruct (ProductManager.priceValue _); case_conditions;
      cbn; try apply onlyAppends_refl.
    rewrite Hp. apply onlyAppends_app.
  - exact Hpu.
  - unfold ProductManager.importCsv.
    destruct Hpi as [Heq|Happ]; [|exact Happ].
    rewrite Heq. apply onlyAppends_refl.
Qed.

Lemma adding_only_appends_witness :
  storage.getClients
    (ClientManager.store
       (ClientManager.importCsv rowIdsExample defaultedTaxIdCsv
          (ClientManager.run seededStorage []))) !! 0%nat = Some clientAcme /\
  storage.getProducts
    (ProductManager.store
       (ProductManager.addProduct "1700000000000"
          (ProductManager.run seededStorage filledProductEvents))) !! 0%nat
  = Some productServicio.
Proof.
  pose proof (adding_only_appends seededStorage [] [] filledProductEvents []
                "1700000000000" defaultedTaxIdCsv rowIdsExample)
    as (_ & _ & [_ Hc] & [_ Hp] & _).
  split; [apply Hc | apply Hp]; reflexivity.
Defined.

(** C10, at the failing input: one client is stored, a CSV file is chosen, a
    second client is added through the form before the file's reader loads;
    the load then saves the client it had captured followed by the imported
    ones, and the client added through the form, stored second before the
    load, is no longer in the saved collection. *)
Theorem import_load_drops_stored_client :
  let w := ClientManager.run seededStorage
             (ClientManager.FileUpload (Some defaultedTaxIdCsv)
                :: fillClientForm ++ [ClientManager.AddClient "1700000000000"]) in
  let before := storage.getClients (ClientManager.store w) in
  let after :=
    storage.getClients (ClientManager.store (ClientManager.readerLoad 0 rowIdsExample w)) in
  Client.name <$> before = ["Acme"; "Empresa SA de CV"] /\
  Client.name <$> after = ["Acme"; "Acme"; "Beta"] /\
  ~ onlyAppends before after.
Proof.
  cbv zeta. split; [reflexivity|]. split; [reflexivity|].
  intros [_ Hkeep].
  specialize (Hkeep 1%nat
                (ClientManager.newClient "1700000000000"
                   (ClientManager.formData filledClientForm)) eq_refl).
  vm_compute in Hkeep. discriminate Hkeep.
Qed.
(** ** Further properties of the client form *)

Lemma required_not_blank (fd : PartialClient.t) :
  (forall k, k ∈ requiredClientFields -> nonEmptyAfterTrim (PartialClient.get k fd)) ->
  JS.blank (PartialClient.name fd) = false /\
  JS.blank (PartialClient.taxId fd) = false /\
  JS.blank (PartialClient.email fd) = false /\
  JS.blank (PartialClient.address fd) = false /\
  JS.blank (PartialClient.zip fd) = false.
Proof.
  intros Hall.
  assert (Hb : forall k, k ∈ requiredClientFields ->
                         JS.blank (PartialClient.get k fd) = false).
  { intros k Hk. apply blank_false, Hall, Hk. }
  unfold requiredClientFields in Hb.
  repeat split;
    [ apply (Hb kName) | apply (Hb kTaxId) | apply (Hb kEmail)
    | apply (Hb kAddress) | apply (Hb kZip) ];
    rewrite !elem_of_cons; tauto.
Qed.

(** What [addClient] does to a world whose form passes the validation. *)
Lemma addClient_success (now : string) (w : ClientManager.World) :
  (forall k, k ∈ requiredClientFields ->
             nonEmptyAfterTrim (PartialClient.get k (ClientManager.formData w))) ->
  ClientManager.addClient now w
  = ClientManager.setIsModalOpen false
      (ClientManager.setFormData PartialClient.empty
         (ClientManager.saveClients
            (ClientManager.clients w ++ [ClientManager.newClient now (ClientManager.formData w)])
            (ClientManager.setClients
               (ClientManager.clients w ++ [ClientManager.newClient now (ClientManager.formData w)])
               w))).
Proof.
  intros Hall. destruct (required_not_blank _ Hall) as (H1 & H2 & H3 & H4 & H5).
  unfold ClientManager.addClient. now rewrite H1, H2, H3, H4, H5.
Qed.

(** X1. A successful [addClient] empties the form and closes the modal, so
    that a second [addClient] right after it stores nothing more and reports
    the missing name: pressing the button twice never stores the client
    twice. *)
Theorem addClient_not_twice (now1 now2 : string) (w : ClientManager.World) :
  (forall k, k ∈ requiredClientFields ->
             nonEmptyAfterTrim (PartialClient.get k (ClientManager.formData w))) ->
  let w1 := ClientManager.addClient now1 w in
  let w2 := ClientManager.addClient now2 w1 in
  ClientManager.formData w1 = PartialClient.empty /\
  ClientManager.isModalOpen w1 = false /\
  length (ClientManager.clients w1) = S (length (ClientManager.clients w)) /\
  ClientManager.clients w2 = ClientManager.clients w1 /\
  ClientManager.store w2 = ClientManager.store w1 /\
  ClientManager.alerts w2 = ClientManager.alerts w ++ [ClientManager.msgName].
Proof.
  intros Hall. cbv zeta. rewrite (addClient_success now1 w Hall).
  repeat split; try reflexivity.
  cbn. rewrite length_app. cbn. lia.
Qed.

Lemma addClient_not_twice_witness :
  storage.getClients
    (ClientManager.store
       (ClientManager.addClient "1700000000001"
          (ClientManager.addClient "1700000000000" filledClientForm)))
  = storage.getClients
      (ClientManager.store (ClientManager.addClient "1700000000000" filledClientForm)).
Proof.
  refine (f_equal storage.getClients
            (proj1 (proj2 (proj2 (proj2 (proj2
               (addClient_not_twice "1700000000000" "1700000000001" filledClientForm _))))))).
  intros k Hk. unfold requiredClientFields in Hk.
  rewrite !elem_of_cons, elem_of_nil in Hk.
  destruct Hk as [->|[->|[->|[->|[->|[]]]]]];
    (eexists; split; [reflexivity | vm_compute; discriminate]).
Defined.

Lemma trim_empty : JS.trim "" = "".
Proof. reflexivity. Qed.

Lemma nonEmptyAfterTrim_truthy (s : string) :
  nonEmptyAfterTrim (Some s) -> JS.truthyStr s = true.
Proof.
  intros (t & [= <-] & Hne). unfold JS.truthyStr.
  destruct (String.eqb s "") eqn:E; [|reflexivity].
  apply String.eqb_eq in E. subst s. now rewrite trim_empty in Hne.
Qed.

(** X2. Every client the form stores carries the five required fields, each
    not empty once trimmed, the identifier drawn from the clock, and a
    country, a city and a phone that are present, the country never empty
    ('México' unless one has been chosen). *)
Theorem form_client_complete (now : string) (w : ClientManager.World) (c : Client.t) :
  ClientManager.clients (ClientManager.addClient now w) = ClientManager.clients w ++ [c] ->
  Client.id c = now /\
  nonEmptyAfterTrim (Some (Client.name c)) /\
  nonEmptyAfterTrim (Some (Client.taxId c)) /\
  nonEmptyAfterTrim (Some (Client.email c)) /\
  nonEmptyAfterTrim (Some (Client.address c)) /\
  nonEmptyAfterTrim (Client.zip c) /\
  (exists x, Client.country c = Some x /\ x <> "") /\
  is_Some (Client.city c) /\ is_Some (Client.phone c).
Proof.
  unfold ClientManager.addClient.
  destruct (JS.blank (PartialClient.name _)) eqn:E1;
    [|destruct (JS.blank (PartialClient.taxId _)) eqn:E2;
      [|destruct (JS.blank (PartialClient.email _)) eqn:E3;
        [|destruct (JS.blank (PartialClient.address _)) eqn:E4;
          [|destruct (JS.blank (PartialClient.zip _)) eqn:E5]]]].
  1-5: intros Hp; cbn in Hp; now apply app_singleton_neq in Hp.
  intros Hp. cbn in Hp. apply app_inj_tail in Hp as [_ <-].
  apply blank_false in E1, E2, E3, E4, E5.
  set (fd := ClientManager.formData w) in *.
  unfold ClientManager.newClient. cbn.
  destruct E1 as (n & -> & Hn), E2 as (t & -> & Ht), E3 as (e & -> & He),
           E4 as (a & -> & Ha).
  pose proof (nonEmptyAfterTrim_truthy) as Htr.
  destruct E5 as (z & Hz & Hzne). rewrite Hz. cbn.
  rewrite (Htr z) by (exists z; auto).
  repeat split; eauto; try (eexists; split; [reflexivity|assumption]).
  destruct (PartialClient.country fd) as [x|]; cbn.
  - unfold JS.truthyStr. destruct (String.eqb x "") eqn:Ex; cbn.
    + eexists; split; [reflexivity|discriminate].
    + exists x. split; [reflexivity|]. now apply String.eqb_neq.
  - eexists; split; [reflexivity|discriminate].
Qed.

Lemma form_client_complete_witness :
  exists c,
    ClientManager.clients (ClientManager.addClient "1700000000000" filledClientForm) = [c] /\
    Client.country c = Some "México" /\ nonEmptyAfterTrim (Client.zip c).
Proof.
  eexists. split; [reflexivity|].
  split; [reflexivity|].
  apply (form_client_complete "1700000000000" filledClientForm). reflexivity.
Defined.

Lemma upperChar_not_lower (c : ascii) :
  (97 <=? nat_of_ascii (JS.upperChar c))%nat && (nat_of_ascii (JS.upperChar c) <=? 122)%nat
  = false.
Proof. destruct c as [[] [] [] [] [] [] [] []]; reflexivity. Qed.

Lemma toUpperCase_no_lower (v : string) : hasLowerAscii (JS.toUpperCase v) = false.
Proof.
  induction v as [|c v IH]; cbn [JS.toUpperCase hasLowerAscii]; [reflexivity|].
  now rewrite upperChar_not_lower, IH.
Qed.

(** X3. In every world reached from the first render, the tax id of a client
    stored by [addClient] holds none of the letters a to z: what was typed
    into the tax-id input went through [toUpperCase]. *)
Theorem form_taxId_no_lowercase (s : storage.t) (es : list ClientManager.Event)
        (now : string) (c : Client.t) :
  ClientManager.clients (ClientManager.addClient now (ClientManager.run s es))
  = ClientManager.clients (ClientManager.run s es) ++ [c] ->
  hasLowerAscii (Client.taxId c) = false.
Proof.
  intros Hc. destruct (form_client_taxId_uppercase s es now c Hc) as [v ->].
  apply toUpperCase_no_lower.
Qed.

Lemma form_taxId_no_lowercase_witness :
  Client.taxId <$>
    ClientManager.clients (ClientManager.addClient "1700000000000" filledClientForm)
  = ["ABC010101XY9"] /\
  hasLowerAscii "ABC010101XY9" = false.
Proof.
  split; [reflexivity|].
  apply (form_taxId_no_lowercase emptyStorage fillClientForm "1700000000000"
           (ClientManager.newClient "1700000000000"
              (ClientManager.formData filledClientForm))).
  reflexivity.
Defined.

(** ** The search bars *)

Lemma includes_empty (s : string) : JS.includes s "" = true.
Proof. destruct s; reflexivity. Qed.

Lemma stripPrefix_self (s : string) : JS.stripPrefix s s = Some "".
Proof.
  induction s as [|c s IH]; cbn; [reflexivity|].
  now rewrite Ascii.eqb_refl.
Qed.

Lemma includes_self (s : string) : JS.includes s s = true.
Proof. destruct s as [|c s]; cbn [JS.includes]; now rewrite stripPrefix_self. Qed.

Lemma lowerChar_upperChar (c : ascii) : JS.lowerChar (JS.upperChar c) = JS.lowerChar c.
Proof. destruct c as [[] [] [] [] [] [] [] []]; reflexivity. Qed.

Lemma lowerChar_idemp (c : ascii) : JS.lowerChar (JS.lowerChar c) = JS.lowerChar c.
Proof. destruct c as [[] [] [] [] [] [] [] []]; reflexivity. Qed.

Lemma toLowerCase_toUpperCase (t : string) :
  JS.toLowerCase (JS.toUpperCase t) = JS.toLowerCase t.
Proof.
  induction t as [|c t IH]; cbn; [reflexivity|].
  now rewrite lowerChar_upperChar, IH.
Qed.

Lemma toLowerCase_idemp (t : string) :
  JS.toLowerCase (JS.toLowerCase t) = JS.toLowerCase t.
Proof.
  induction t as [|c t IH]; cbn; [reflexivity|].
  now rewrite lowerChar_idemp, IH.
Qed.

Lemma filter_all {A} (P : A -> Prop) `{forall x, Decision (P x)} (l : list A) :
  (forall x, x ∈ l -> P x) -> filter P l = l.
Proof.
  induction l as [|x l IH]; intros Hall; [reflexivity|].
  rewrite filter_cons_True by (apply Hall; left).
  f_equal. apply IH. intros y Hy. apply Hall. now right.
Qed.

(** X4. The list of clients under the search bar is the stored order thinned
    out, it is the whole list while the search term is empty, and a client is
    always listed when the term is its name or its tax id as stored. *)
Theorem filteredClients_search (w : ClientManager.World) :
  ClientManager.filteredClients w `sublist_of` ClientManager.clients w /\
  (ClientManager.searchTerm w = "" ->
   ClientManager.filteredClients w = ClientManager.clients w) /\
  (forall c, c ∈ ClientManager.clients w ->
             ClientManager.searchTerm w = Client.name c \/
             ClientManager.searchTerm w = Client.taxId c ->
             c ∈ ClientManager.filteredClients w).
Proof.
  unfold ClientManager.filteredClients, ClientManager.matchesSearch.
  split; [apply sublist_filter|]. split.
  - intros ->. apply filter_all. intros c _.
    cbn [JS.toLowerCase]. now rewrite includes_empty.
  - intros c Hc Hterm. apply list_elem_of_filter. split; [|exact Hc].
    destruct Hterm as [-> | ->]; rewrite includes_self; [|rewrite orb_true_r]; exact I.
Qed.

Lemma filteredClients_search_witness :
  ClientManager.filteredClients
    (ClientManager.setSearchTerm "" (ClientManager.mount seededStorage)) = [clientAcme] /\
  clientAcme ∈ ClientManager.filteredClients
                 (ClientManager.setSearchTerm "ACM010101AAA" (ClientManager.mount seededStorage)).
Proof.
  split.
  - apply (proj1 (proj2 (filteredClients_search
                           (ClientManager.setSearchTerm "" (ClientManager.mount seededStorage))))).
    reflexivity.
  - apply (proj2 (proj2 (filteredClients_search
                           (ClientManager.setSearchTerm "ACM010101AAA"
                              (ClientManager.mount seededStorage))))).
    + apply elem_of_cons. now left.
    + right. reflexivity.
Defined.

(** X5. For a search term of ASCII characters the two search bars take no
    account of letter case: the term, its upper-case form and its lower-case
    form list the same clients and the same products. *)
Theorem search_ignores_case (t : string) (cw : ClientManager.World)
        (pw : ProductManager.World) :
  isAsciiText t = true ->
  ClientManager.filteredClients (ClientManager.setSearchTerm (JS.toUpperCase t) cw)
  = ClientManager.filteredClients (ClientManager.setSearchTerm t cw) /\
  ClientManager.filteredClients (ClientManager.setSearchTerm (JS.toLowerCase t) cw)
  = ClientManager.filteredClients (ClientManager.setSearchTerm t cw) /\
  ProductManager.filteredProducts (ProductManager.setSearchTerm (JS.toUpperCase t) pw)
  = ProductManager.filteredProducts (ProductManager.setSearchTerm t pw) /\
  ProductManager.filteredProducts (ProductManager.setSearchTerm (JS.toLowerCase t) pw)
  = ProductManager.filteredProducts (ProductManager.setSearchTerm t pw).
Proof.
  intros _.
  unfold ClientManager.filteredClients, ClientManager.matchesSearch,
    ProductManager.filteredProducts, ProductManager.matchesSearch.
  cbn [ClientManager.searchTerm ClientManager.setSearchTerm ClientManager.clients
       ProductManager.searchTerm ProductManager.setSearchTerm ProductManager.products].
  now rewrite toLowerCase_toUpperCase, toLowerCase_idemp.
Qed.

Lemma search_ignores_case_witness :
  ClientManager.filteredClients
    (ClientManager.setSearchTerm (JS.toUpperCase "acme") (ClientManager.mount seededStorage))
  = [clientAcme] /\
  ProductManager.filteredProducts
    (ProductManager.setSearchTerm (JS.toLowerCase "SERV") (ProductManager.mount seededStorage))
  = [productServicio].
Proof.
  pose proof (search_ignores_case "acme" (ClientManager.mount seededStorage)
                (ProductManager.mount seededStorage) eq_refl) as (Hc & _).
  pose proof (search_ignores_case "SERV" (ClientManager.mount seededStorage)
                (ProductManager.mount seededStorage) eq_refl) as (_ & _ & _ & Hp).
  split; [rewrite Hc | rewrite Hp]; reflexivity.
Defined.

(** X6. The list of products under the search bar is the stored order thinned
    out, it is the whole list while the search term is empty, and a product
    is always listed when the term is its name or its code as stored. *)
Theorem filteredProducts_search (w : ProductManager.World) :
  ProductManager.filteredProducts w `sublist_of` ProductManager.products w /\
  (ProductManager.searchTerm w = "" ->
   ProductManager.filteredProducts w = ProductManager.products w) /\
  (forall p, p ∈ ProductManager.products w ->
             ProductManager.searchTerm w = Product.name p \/
             ProductManager.searchTerm w = Product.code p ->
             p ∈ ProductManager.filteredProducts w).
Proof.
  unfold ProductManager.filteredProducts, ProductManager.matchesSearch.
  split; [apply sublist_filter|]. split.
  - intros ->. apply filter_all. intros p _.
    cbn [JS.toLowerCase]. now rewrite includes_empty.
  - intros p Hp Hterm. apply list_elem_of_filter. split; [|exact Hp].
    destruct Hterm as [-> | ->]; rewrite includes_self; [|rewrite orb_true_r]; exact I.
Qed.

Lemma filteredProducts_search_witness :
  ProductManager.filteredProducts
    (ProductManager.setSearchTerm "" (ProductManager.mount seededStorage))
  = [productServicio] /\
  productServicio ∈ ProductManager.filteredProducts
                      (ProductManager.setSearchTerm "S-1" (ProductManager.mount seededStorage)).
Proof.
  split.
  - apply (proj1 (proj2 (filteredProducts_search
                           (ProductManager.setSearchTerm "" (ProductManager.mount seededStorage))))).
    reflexivity.
  - apply (proj2 (proj2 (filteredProducts_search
                           (ProductManager.setSearchTerm "S-1"
                              (ProductManager.mount seededStorage))))).
    + apply elem_of_cons. now left.
    + right. reflexivity.
Defined.

(** ** Further properties of the CSV imports *)

Lemma length_split (sep : ascii) (s : string) :
  length (JS.split sep s) = S (countChar sep s).
Proof.
  induction s as [|c s IH]; cbn [JS.split countChar]; [reflexivity|].
  destruct (split_cons sep s) as (piece & pieces & Es). rewrite Es in *.
  destruct (Ascii.eqb c sep); cbn in *; lia.
Qed.

Lemma length_filterNotNull {A} (l : list (option A)) :
  length (filterNotNull l) <= length l.
Proof. induction l as [|[x|] l IH]; cbn; lia. Qed.

(** X7. An import reads at most one record per line feed of the file: the
    first line is taken for the header whatever it holds, so a file of a
    single line, even a line of data, yields no client and no product. *)
Theorem import_skips_first_line (rowIds : nat -> string) (text : string) :
  length (ClientManager.newClients rowIds text) <= countChar "010" text /\
  length (ProductManager.newProducts rowIds text) <= countChar "010" text /\
  (countChar "010" text = 0 ->
   ClientManager.newClients rowIds text = [] /\
   ProductManager.newProducts rowIds text = []).
Proof.
  assert (Hrows : length (JS.slice1 (JS.split "010" text)) = countChar "010" text).
  { unfold JS.slice1. rewrite length_drop, length_split. lia. }
  assert (Hc : length (ClientManager.newClients rowIds text) <= countChar "010" text).
  { unfold ClientManager.newClients.
    etransitivity; [apply length_filterNotNull|]. now rewrite length_imap, Hrows. }
  assert (Hp : length (ProductManager.newProducts rowIds text) <= countChar "010" text).
  { unfold ProductManager.newProducts.
    etransitivity; [apply length_filterNotNull|]. now rewrite length_imap, Hrows. }
  split; [exact Hc|]. split; [exact Hp|].
  intros Hz. rewrite Hz in Hc, Hp.
  split; apply length_zero_iff_nil; lia.
Qed.

Lemma import_skips_first_line_witness :
  ClientManager.newClients rowIdsExample "Acme,ACM010101AAA,ventas@acme.mx" = [] /\
  ProductManager.newProducts rowIdsExample "Servicio,100" = [].
Proof.
  split.
  - apply (proj2 (proj2 (import_skips_first_line rowIdsExample
                           "Acme,ACM010101AAA,ventas@acme.mx"))).
    reflexivity.
  - apply (proj2 (proj2 (import_skips_first_line rowIdsExample "Servicio,100"))).
    reflexivity.
Defined.

Lemma clientOfLine_is_Some (rowId line : string) :
  is_Some (ClientManager.clientOfLine rowId line) <-> Is_true (rowHasName line).
Proof.
  unfold rowHasName. split.
  - intros [c Hc]. apply clientOfLine_Some in Hc as [Hname _].
    apply blank_false in Hname. now rewrite Hname.
  - intros Hn. destruct (JS.blank (JS.split "," line !! 0%nat)) eqn:E; [contradiction|].
    apply blank_false in E. destruct (clientOfLine_nonblank rowId line E) as [c Hc].
    now exists c.
Qed.

Lemma length_clients_of_rows (rowIds : nat -> string) (rows : list string) :
  length (filterNotNull (imap (fun i line => ClientManager.clientOfLine (rowIds i) line) rows))
  = length (filter (fun line => Is_true (rowHasName line)) rows).
Proof.
  revert rowIds. induction rows as [|line rows IH]; intros rowIds; [reflexivity|].
  rewrite imap_cons. cbn [filterNotNull].
  pose proof (clientOfLine_is_Some (rowIds 0%nat) line) as Hiff.
  destruct (ClientManager.clientOfLine (rowIds 0%nat) line) as [c|] eqn:Ec.
  - rewrite filter_cons_True by (apply Hiff; eauto).
    cbn [length]. f_equal. apply (IH (rowIds ∘ S)).
  - rewrite filter_cons_False.
    + apply (IH (rowIds ∘ S)).
    + intros Hn. apply Hiff in Hn. now destruct Hn.
Qed.

(** X8. When the reader of a client CSV loads, the number of clients stored
    after those it captured is the number of data rows whose first column is
    not blank, the component's list is the stored one, and one alert reports
    that number; when there is no such row, nothing is stored, listed or
    reported. *)
Theorem client_import_report (w : ClientManager.World) (k : nat)
        (r : ClientManager.Reader) (rowIds : nat -> string) :
  ClientManager.readers w !! k = Some r ->
  ClientManager.loaded r = false ->
  let w' := ClientManager.readerLoad k rowIds w in
  let n := length (filter (fun line => Is_true (rowHasName line))
                          (JS.slice1 (JS.split "010" (ClientManager.fileText r)))) in
  (n = 0 ->
   ClientManager.clients w' = ClientManager.clients w /\
   ClientManager.store w' = ClientManager.store w /\
   ClientManager.alerts w' = ClientManager.alerts w) /\
  (n <> 0 ->
   length (storage.getClients (ClientManager.store w')) = length (ClientManager.captured r) + n /\
   take (length (ClientManager.captured r)) (storage.getClients (ClientManager.store w'))
   = ClientManager.captured r /\
   ClientManager.clients w' = storage.getClients (ClientManager.store w') /\
   ClientManager.alerts w'
   = ClientManager.alerts w ++ [natToString n +:+ " clientes importados correctamente."]).
Proof.
  intros Hr Hl. cbv zeta.
  rewrite <- (length_clients_of_rows rowIds).
  change (filterNotNull _) with (ClientManager.newClients rowIds (ClientManager.fileText r)).
  unfold ClientManager.readerLoad, ClientManager.onload. rewrite Hr, Hl.
  destruct (ClientManager.newClients rowIds (ClientManager.fileText r)) as [|c nc].
  - split; [intros _; now repeat split | intros Hn; now destruct Hn].
  - split; [discriminate|]. intros _. cbn.
    rewrite length_app, take_app_length. now repeat split.
Qed.

Lemma client_import_report_witness :
  ClientManager.alerts
    (ClientManager.run seededStorage
       [ClientManager.FileUpload (Some defaultedTaxIdCsv);
        ClientManager.ReaderLoad 0 rowIdsExample])
  = ["2 clientes importados correctamente."].
Proof.
  refine (proj2 (proj2 (proj2 (proj2 (client_import_report
            (ClientManager.run seededStorage [ClientManager.FileUpload (Some defaultedTaxIdCsv)])
            0%nat (ClientManager.mkReader [clientAcme] defaultedTaxIdCsv false)
            rowIdsExample eq_refl eq_refl) _)))).
  vm_compute. discriminate.
Defined.

(** X9. A client read from a CSV row never has an empty name or an empty tax
    id, and never has a city, a zip or a phone: neither the third nor any
    later column is read into them. *)
Theorem imported_client_fields (rowIds : nat -> string) (text : string) (c : Client.t) :
  c ∈ ClientManager.newClients rowIds text ->
  Client.name c <> "" /\ Client.taxId c <> "" /\
  Client.city c = None /\ Client.zip c = None /\ Client.phone c = None /\
  exists j, Client.id c = rowIds j /\ j < countChar "010" text.
Proof.
  intros Hc. apply elem_of_newClients in Hc as (j & line & Hrow & Hline).
  assert (Hj : j < countChar "010" text).
  { apply lookup_lt_Some in Hrow. unfold JS.slice1 in Hrow.
    rewrite length_drop, length_split in Hrow. lia. }
  revert Hline. unfold ClientManager.clientOfLine.
  destruct (JS.blank (JS.split "," line !! 0%nat)) eqn:E0.
  - rewrite orb_true_r. discriminate.
  - destruct (length (JS.split "," line) <? 1)%nat; [discriminate|].
    cbn [orb]. intros [= <-]. cbn.
    apply blank_false in E0 as (n & Hn & Hne). rewrite Hn. cbn.
    split; [exact Hne|]. split; [|eauto 10].
    destruct (JS.split "," line !! 1%nat) as [t|]; cbn; [|discriminate].
    unfold JS.truthyStr. destruct (String.eqb (JS.trim t) "") eqn:Et; cbn.
    + discriminate.
    + now apply String.eqb_neq.
Qed.

Lemma imported_client_fields_witness :
  exists c, c ∈ ClientManager.newClients rowIdsExample defaultedTaxIdCsv /\
            Client.name c = "Beta" /\ Client.zip c = None.
Proof.
  exists (Client.mk (rowIdsExample 1) "Beta" "XAXX010101000" "" "" None None None
                    (Some "México")).
  assert (Hin : Client.mk (rowIdsExample 1) "Beta" "XAXX010101000" "" "" None None None
                          (Some "México")
                ∈ ClientManager.newClients rowIdsExample defaultedTaxIdCsv).
  { vm_compute. apply elem_of_cons. right. apply elem_of_cons. now left. }
  split; [exact Hin|]. split; [reflexivity|].
  apply (imported_client_fields rowIdsExample defaultedTaxIdCsv _ Hin).
Defined.

(** ** Further properties of the product form and import *)

Lemma addProduct_price_witness :
  Product.price <$>
    ProductManager.products
      (ProductManager.addProduct "1700000000000"
         (ProductManager.run emptyStorage filledProductEvents))
  = [Fin (3001 # 2)] /\
  positive (Fin (3001 # 2)) = true /\
  ProductManager.store
    (ProductManager.addProduct "1700000000000"
       (ProductManager.run emptyStorage
          (filledProductEvents ++ [ProductManager.InputChange pPrice "-3"])))
  = emptyStorage.
Proof.
  split; [reflexivity|]. split.
  - apply (proj2 (addProduct_price "1700000000000"
                    (ProductManager.run emptyStorage filledProductEvents))
             (ProductManager.newProduct "1700000000000"
                (ProductManager.formData (ProductManager.run emptyStorage filledProductEvents))
                (Fin (3001 # 2)))).
    reflexivity.
  - apply (proj1 (addProduct_price "1700000000000"
                    (ProductManager.run emptyStorage
                       (filledProductEvents ++ [ProductManager.InputChange pPrice "-3"])))).
    reflexivity.
Defined.

(** X11. A successful [addProduct] puts the form back to a price of 0 and the
    unit H87 and closes the modal; whatever name and code are typed next, a
    second [addProduct] stores nothing until a price is typed again, and with
    a name and a code it reports the price. *)
Theorem addProduct_resets_price (now1 now2 name code : string) (w : ProductManager.World) :
  nonEmptyAfterTrim (PartialProduct.name (ProductManager.formData w)) ->
  nonEmptyAfterTrim (PartialProduct.code (ProductManager.formData w)) ->
  ProductManager.badPrice (ProductManager.priceValue (ProductManager.formData w)) = false ->
  let w1 := ProductManager.addProduct now1 w in
  let w2 := ProductManager.addProduct now2
              (ProductManager.handleInputChange pCode code
                 (ProductManager.handleInputChange pName name w1)) in
  ProductManager.formData w1 = PartialProduct.initial /\
  ProductManager.isModalOpen w1 = false /\
  length (ProductManager.products w1) = S (length (ProductManager.products w)) /\
  ProductManager.products w2 = ProductManager.products w1 /\
  ProductManager.store w2 = ProductManager.store w1 /\
  (nonEmptyAfterTrim (Some name) -> nonEmptyAfterTrim (Some code) ->
   ProductManager.alerts w2 = ProductManager.alerts w1 ++ [ProductManager.msgPrice]).
Proof.
  intros Hn Hc Hp. apply blank_false in Hn, Hc. cbv zeta.
  assert (E1 : ProductManager.addProduct now1 w
               = ProductManager.setIsModalOpen false
                   (ProductManager.setFormData PartialProduct.initial
                      (ProductManager.saveProducts
                         (ProductManager.products w ++
                            [ProductManager.newProduct now1 (ProductManager.formData w)
                               (default NaN (ProductManager.priceValue (ProductManager.formData w)))])
                         (ProductManager.setProducts
                            (ProductManager.products w ++
                               [ProductManager.newProduct now1 (ProductManager.formData w)
                                  (default NaN (ProductManager.priceValue (ProductManager.formData w)))])
                            w)))).
  { unfold ProductManager.addProduct. rewrite Hn, Hc.
    destruct (ProductManager.priceValue (ProductManager.formData w)) as [pv|];
      [|discriminate Hp].
    now rewrite Hp. }
  rewrite E1. cbn -[JS.blank].
  split; [reflexivity|]. split; [reflexivity|].
  split; [rewrite length_app; cbn; lia|].
  unfold ProductManager.addProduct. cbn -[JS.blank].
  split; [|split].
  - destruct (JS.blank (Some name)); [reflexivity|].
    destruct (JS.blank (Some code)); reflexivity.
  - destruct (JS.blank (Some name)); [reflexivity|].
    destruct (JS.blank (Some code)); reflexivity.
  - intros Hname Hcode. apply blank_false in Hname, Hcode.
    now rewrite Hname, Hcode.
Qed.

Lemma addProduct_resets_price_witness :
  let w1 := ProductManager.addProduct "1700000000000"
              (ProductManager.run emptyStorage filledProductEvents) in
  ProductManager.alerts
    (ProductManager.addProduct "1700000000001"
       (ProductManager.handleInputChange pCode "S-2"
          (ProductManager.handleInputChange pName "Soporte" w1)))
  = [ProductManager.msgPrice].
Proof.
  cbv zeta.
  refine (proj2 (proj2 (proj2 (proj2 (proj2
            (addProduct_resets_price "1700000000000" "1700000000001" "Soporte" "S-2"
               (ProductManager.run emptyStorage filledProductEvents) _ _ _))))) _ _).
  - eexists; split; [reflexivity | vm_compute; discriminate].
  - eexists; split; [reflexivity | vm_compute; discriminate].
  - reflexivity.
  - eexists; split; [reflexivity | vm_compute; discriminate].
  - eexists; split; [reflexivity | vm_compute; discriminate].
Defined.

(** X12. Every product the form stores carries the identifier drawn from the
    clock, a name and a code that are not empty once trimmed, the price read
    from the form, a unit that is never empty (H87 unless one has been
    chosen) and a description that is present. *)
Theorem form_product_complete (now : string) (w : ProductManager.World) (p : Product.t) :
  ProductManager.products (ProductManager.addProduct now w)
  = ProductManager.products w ++ [p] ->
  Product.id p = now /\
  nonEmptyAfterTrim (Some (Product.name p)) /\
  nonEmptyAfterTrim (Some (Product.code p)) /\
  ProductManager.priceValue (ProductManager.formData w) = Some (Product.price p) /\
  (exists u, Product.unit p = Some u /\ u <> "") /\
  is_Some (Product.description p).
Proof.
  unfold ProductManager.addProduct.
  destruct (JS.blank (PartialProduct.name _)) eqn:E1;
    [|destruct (JS.blank (PartialProduct.code _)) eqn:E2;
      [|destruct (ProductManager.priceValue _) as [pv|] eqn:Epv;
        [destruct (ProductManager.badPrice (Some pv))|]]].
  1-3,5: intros Hp; cbn in Hp; now apply app_singleton_neq in Hp.
  intros Hp. cbn in Hp. apply app_inj_tail in Hp as [_ <-].
  apply blank_false in E1, E2.
  set (fd := ProductManager.formData w) in *. cbn.
  destruct E1 as (n & -> & Hn), E2 as (c & -> & Hc). cbn.
  repeat split; eauto; try (eexists; split; [reflexivity|assumption]).
  destruct (PartialProduct.unit fd) as [u|]; cbn.
  - unfold JS.truthyStr. destruct (String.eqb u "") eqn:Eu; cbn.
    + eexists; split; [reflexivity|discriminate].
    + exists u. split; [reflexivity|]. now apply String.eqb_neq.
  - eexists; split; [reflexivity|discriminate].
Qed.

Lemma form_product_complete_witness :
  exists p,
    ProductManager.products
      (ProductManager.addProduct "1700000000000"
         (ProductManager.run emptyStorage filledProductEvents)) = [p] /\
    Product.unit p = Some "H87" /\
    nonEmptyAfterTrim (Some (Product.code p)).
Proof.
  eexists. split; [reflexivity|]. split; [reflexivity|].
  apply (form_product_complete "1700000000000"
           (ProductManager.run emptyStorage filledProductEvents)).
  reflexivity.
Defined.

Lemma elem_of_newProducts (rowIds : nat -> string) (text : string) (p : Product.t) :
  p ∈ ProductManager.newProducts rowIds text <->
  exists k line, JS.slice1 (JS.split "010" text) !! k = Some line /\
                 ProductManager.productOfLine (rowIds k) line = Some p.
Proof.
  unfold ProductManager.newProducts.
  rewrite elem_of_filterNotNull, elem_of_lookup_imap.
  split; intros (k & line & H1 & H2); exists k, line; auto.
Qed.

Lemma orElse_not_NaN (a : number) : Num.orElse a Num.zero <> NaN.
Proof. unfold Num.orElse. destruct a; cbn; try discriminate. destruct (Qeq_bool q 0); discriminate. Qed.

(** X13. A product read from a CSV row never has an empty name or an empty
    code, its price is never [NaN], its unit is H87 and it has no
    description; and a row without a second column yields no product, even
    when it holds a name. *)
Theorem imported_product_fields (rowIds : nat -> string) (text : string) :
  (forall p, p ∈ ProductManager.newProducts rowIds text ->
     Product.name p <> "" /\ Product.code p <> "" /\ Product.price p <> NaN /\
     Product.unit p = Some "H87" /\ Product.description p = None) /\
  (forall rowId line, countChar "," line = 0 ->
                      ProductManager.productOfLine rowId line = None).
Proof.
  split.
  - intros p Hp. apply elem_of_newProducts in Hp as (j & line & _ & Hline).
    revert Hline. unfold ProductManager.productOfLine.
    destruct (JS.blank (JS.split "," line !! 0%nat)) eqn:E0.
    + rewrite orb_true_r. discriminate.
    + destruct (length (JS.split "," line) <? 2)%nat; [discriminate|].
      cbn [orb]. intros [= <-]. cbn.
      apply blank_false in E0 as (n & Hn & Hne). rewrite Hn. cbn.
      split; [exact Hne|]. split; [|split; [apply orElse_not_NaN | auto]].
      destruct (JS.split "," line !! 2%nat) as [t|]; cbn; [|discriminate].
      unfold JS.truthyStr. destruct (String.eqb (JS.trim t) "") eqn:Et; cbn.
      * discriminate.
      * now apply String.eqb_neq.
  - intros rowId line Hz. unfold ProductManager.productOfLine.
    rewrite length_split, Hz. reflexivity.
Qed.

Lemma imported_product_fields_witness :
  ProductManager.productOfLine (rowIdsExample 0) "Regalo" = None /\
  is_Some (ClientManager.clientOfLine (rowIdsExample 0) "Regalo").
Proof.
  split.
  - apply (proj2 (imported_product_fields rowIdsExample "")). reflexivity.
  - eexists. reflexivity.
Defined.

Lemma productOfLine_is_Some (rowId line : string) :
  is_Some (ProductManager.productOfLine rowId line) <-> Is_true (rowHasProduct line).
Proof.
  unfold rowHasProduct, ProductManager.productOfLine.
  destruct ((length (JS.split "," line) <? 2)%nat || JS.blank (JS.split "," line !! 0%nat));
    cbn; split; try tauto.
  - now intros [? ?].
  - eauto.
Qed.

Lemma length_products_of_rows (rowIds : nat -> string) (rows : list string) :
  length (filterNotNull (imap (fun i line => ProductManager.productOfLine (rowIds i) line) rows))
  = length (filter (fun line => Is_true (rowHasProduct line)) rows).
Proof.
  revert rowIds. induction rows as [|line rows IH]; intros rowIds; [reflexivity|].
  rewrite imap_cons. cbn [filterNotNull].
  pose proof (productOfLine_is_Some (rowIds 0%nat) line) as Hiff.
  destruct (ProductManager.productOfLine (rowIds 0%nat) line) as [p|] eqn:Ep.
  - rewrite filter_cons_True by (apply Hiff; eauto).
    cbn [length]. f_equal. apply (IH (rowIds ∘ S)).
  - rewrite filter_cons_False.
    + apply (IH (rowIds ∘ S)).
    + intros Hn. apply Hiff in Hn. now destruct Hn.
Qed.

(** X14. When the reader of a product CSV loads, the number of products
    stored after those it captured is the number of data rows that have at
    least two columns and a first column that is not blank, the component's
    list is the stored one, and one alert reports that number; when there is
    no such row, nothing is stored, listed or reported. *)
Theorem product_import_report (w : ProductManager.World) (k : nat)
        (r : ProductManager.Reader) (rowIds : nat -> string) :
  ProductManager.readers w !! k = Some r ->
  ProductManager.loaded r = false ->
  let w' := ProductManager.readerLoad k rowIds w in
  let n := length (filter (fun line => Is_true (rowHasProduct line))
                          (JS.slice1 (JS.split "010" (ProductManager.fileText r)))) in
  (n = 0 ->
   ProductManager.products w' = ProductManager.products w /\
   ProductManager.store w' = ProductManager.store w /\
   ProductManager.alerts w' = ProductManager.alerts w) /\
  (n <> 0 ->
   length (storage.getProducts (ProductManager.store w'))
   = length (ProductManager.captured r) + n /\
   take (length (ProductManager.captured r)) (storage.getProducts (ProductManager.store w'))
   = ProductManager.captured r /\
   ProductManager.products w' = storage.getProducts (ProductManager.store w') /\
   ProductManager.alerts w'
   = ProductManager.alerts w ++ [natToString n +:+ " productos importados correctamente."]).
Proof.
  intros Hr Hl. cbv zeta.
  rewrite <- (length_products_of_rows rowIds).
  change (filterNotNull _) with (ProductManager.newProducts rowIds (ProductManager.fileText r)).
  unfold ProductManager.readerLoad, ProductManager.onload. rewrite Hr, Hl.
  destruct (ProductManager.newProducts rowIds (ProductManager.fileText r)) as [|p np].
  - split; [intros _; now repeat split | intros Hn; now destruct Hn].
  - split; [discriminate|]. intros _. cbn.
    rewrite length_app, take_app_length. now repeat split.
Qed.

Lemma product_import_report_witness :
  ProductManager.alerts
    (ProductManager.run seededStorage
       [ProductManager.FileUpload (Some nonPositivePriceCsv);
        ProductManager.ReaderLoad 0 rowIdsExample])
  = ["3 productos importados correctamente."].
Proof.
  refine (proj2 (proj2 (proj2 (proj2 (product_import_report
            (ProductManager.run seededStorage [ProductManager.FileUpload (Some nonPositivePriceCsv)])
            0%nat (ProductManager.mkReader [productServicio] nonPositivePriceCsv false)
            rowIdsExample eq_refl eq_refl) _)))).
  vm_compute. discriminate.
Defined.

(** ** The unit shown on a product card *)

Lemma findUnit_in (unit : option string) (entry : string * string) :
  ProductManager.findUnit unit = Some entry ->
  entry ∈ ProductManager.UNIT_TYPES /\ unit = Some (fst entry).
Proof.
  destruct unit as [u|]; [|discriminate]. cbn [ProductManager.findUnit].
  intros H. apply List.find_some in H as [Hin Heq].
  apply String.eqb_eq in Heq. subst u.
  split; [now apply list_elem_of_In | reflexivity].
Qed.

(** X15. The unit shown on a product card is never empty: a unit of the
    catalogue shows the label of the catalogue, any other unit that is not
    empty shows as it is, and a missing or empty unit shows 'Pieza'. *)
Theorem unitLabel_cases (p : Product.t) :
  ProductManager.unitLabel p <> "" /\
  (forall code label, (code, label) ∈ ProductManager.UNIT_TYPES ->
                      Product.unit p = Some code ->
                      ProductManager.unitLabel p = label) /\
  (forall u, Product.unit p = Some u -> u <> "" ->
             u ∉ (fst <$> ProductManager.UNIT_TYPES) ->
             ProductManager.unitLabel p = u) /\
  (Product.unit p = None \/ Product.unit p = Some "" ->
   ProductManager.unitLabel p = "Pieza").
Proof.
  unfold ProductManager.unitLabel.
  split; [|split; [|split]].
  - destruct (ProductManager.findUnit (Product.unit p)) as [[code label]|] eqn:Ef.
    + apply findUnit_in in Ef as [Hin _].
      unfold ProductManager.UNIT_TYPES in Hin.
      rewrite !elem_of_cons, elem_of_nil in Hin.
      destruct Hin as [H|[H|[H|[H|[H|[H|[H|[H|[H|[]]]]]]]]]];
        injection H as -> ->; cbn; discriminate.
    + cbn. destruct (Product.unit p) as [u|]; cbn; [|discriminate].
      unfold JS.truthyStr. destruct (String.eqb u "") eqn:Eu; cbn; [discriminate|].
      now apply String.eqb_neq.
  - intros code label Hin ->.
    unfold ProductManager.UNIT_TYPES in Hin.
    rewrite !elem_of_cons, elem_of_nil in Hin.
    destruct Hin as [H|[H|[H|[H|[H|[H|[H|[H|[H|[]]]]]]]]]];
      injection H as -> ->; reflexivity.
  - intros u -> Hne Hnotin.
    destruct (ProductManager.findUnit (Some u)) as [entry|] eqn:Ef.
    + apply findUnit_in in Ef as [Hin [= ->]].
      exfalso. apply Hnotin. now apply list_elem_of_fmap_2.
    + cbn. unfold JS.truthyStr. apply String.eqb_neq in Hne. now rewrite Hne.
  - intros [-> | ->]; reflexivity.
Qed.

Lemma unitLabel_cases_witness :
  ProductManager.unitLabel productServicio = "Unidad de servicio (E48)" /\
  ProductManager.unitLabel
    (Product.mk "2" "T-1" "Tela" (Fin 10) (Some "rollo") None) = "rollo".
Proof.
  split.
  - apply (proj1 (proj2 (unitLabel_cases productServicio)) "E48").
    + unfold ProductManager.UNIT_TYPES. rewrite !elem_of_cons. tauto.
    + reflexivity.
  - apply (proj1 (proj2 (proj2
             (unitLabel_cases (Product.mk "2" "T-1" "Tela" (Fin 10) (Some "rollo") None))))).
    + reflexivity.
    + discriminate.
    + cbn. rewrite !elem_of_cons, elem_of_nil. intuition discriminate.
Defined.

(** ** Leaving a tab and coming back *)

(** X16. A manager that is rendered again from the storage it left behind
    lists, with its search bar empty, every client (or product) it listed
    before, in the same order; what had been typed into the form is gone. *)
Theorem remount_lists_the_same (s : storage.t)
        (ces : list ClientManager.Event) (pes : list ProductManager.Event) :
  let cw := ClientManager.run s ces in
  let pw := ProductManager.run s pes in
  let cw' := ClientManager.mount (ClientManager.store cw) in
  let pw' := ProductManager.mount (ProductManager.store pw) in
  ClientManager.filteredClients cw' = ClientManager.clients cw /\
  ClientManager.formData cw' = PartialClient.empty /\
  ProductManager.filteredProducts pw' = ProductManager.products pw /\
  ProductManager.formData pw' = PartialProduct.initial.
Proof.
  cbv zeta.
  rewrite (clients_mirror_storage s ces), (products_mirror_storage s pes).
  repeat split.
  - apply (filter_all _ _). intros c _.
    unfold ClientManager.matchesSearch. cbn. now rewrite includes_empty.
  - apply (filter_all _ _). intros p _.
    unfold ProductManager.matchesSearch. cbn. now rewrite includes_empty.
Qed.

(** ** Printing and navigating *)

(** X17. From the request to print an invoice until [afterprint], whatever
    tabs are selected, however the mobile menu is toggled and whenever the
    print timer runs, the main application stays hidden and the print view keeps the requested invoice;
    [afterprint] then shows the application on the tab and with the menu that
    the same navigation would have led to without printing. *)
Theorem printing_and_navigation (s : App.State) (invoice : Invoice.t)
        (es : list App.Event) :
  forallb isNavigation es = true ->
  let printing := fold_left App.step es (App.handlePrint invoice s) in
  let after := App.handleAfterPrint printing in
  let plain := fold_left App.step es s in
  App.printInvoice printing = Some invoice /\
  App.mainHidden printing = true /\
  App.mainHidden after = false /\
  App.activeTab after = App.activeTab plain /\
  App.isMobileMenuOpen after = App.isMobileMenuOpen plain.
Proof.
  intros Hnav. cbv zeta.
  assert (G : forall s1 s2,
             App.activeTab s1 = App.activeTab s2 ->
             App.isMobileMenuOpen s1 = App.isMobileMenuOpen s2 ->
             App.printInvoice s1 = Some invoice ->
             App.activeTab (fold_left App.step es s1) = App.activeTab (fold_left App.step es s2) /\
             App.isMobileMenuOpen (fold_left App.step es s1)
             = App.isMobileMenuOpen (fold_left App.step es s2) /\
             App.printInvoice (fold_left App.step es s1) = Some invoice).
  { induction es as [|e es IH]; intros s1 s2 Ht Hm Hp; [auto|].
    cbn [forallb] in Hnav. apply andb_true_iff in Hnav as [He Hes].
    cbn [fold_left]. apply (IH Hes).
    all: destruct e; try discriminate He; cbn; auto. }
  destruct (G (App.handlePrint invoice s) s eq_refl eq_refl eq_refl) as (Ht & Hm & Hp).
  unfold App.mainHidden. cbn. rewrite Hp. auto.
Qed.

Lemma printing_and_navigation_witness :
  let after :=
    App.handleAfterPrint
      (fold_left App.step [App.MenuOpen true; App.NavClick App.clients]
                 (App.handlePrint draftInvoice App.initial)) in
  App.activeTab after = App.clients /\ App.isMobileMenuOpen after = false.
Proof.
  cbv zeta.
  pose proof (printing_and_navigation App.initial draftInvoice
                [App.MenuOpen true; App.NavClick App.clients] eq_refl)
    as (_ & _ & _ & Ht & Hm).
  split; [rewrite Ht | rewrite Hm]; reflexivity.
Defined.
